(** * bloodyAD/utils.py: a shallow embedding and its properties

    The development follows [src/bloodyAD/utils.py] function by function:
    [createACE], [createEmptySD], [resolvDN], [getDefaultNamingContext],
    [cryptPassword], [userAccountControl] and [rpcChangePassword].

    Python values are modelled as follows.
    - [int] is [Z] (unbounded), with [Z.lor], [Z.land] and [Z.lnot] for
      [|], [&] and [~].
    - [bytes] is a list of octets, each a [Z] in [0, 256).
    - [str] is a list of Unicode code points, each a [Z]; literals of the
      source are written [lit "..."].
    - a [dict] with string keys is a [gmap string _].
    - an exception is a constructor of [exn]; a call that may raise returns
      an [outcome].
    - the ldap3 connection and the SAMR transport are mutable objects that
      talk to a remote peer: they are modelled by a state record threaded
      through a state-and-exception monad, the peer being an arbitrary
      function of the requests seen so far. *)

From Stdlib Require Import ZArith Lia Ascii String.
From stdpp Require Import base option list gmap strings.

Local Open Scope Z_scope.

(** ** Python values *)

Abbreviation byte := Z (only parsing).
Abbreviation bytes := (list Z) (only parsing).
Abbreviation str := (list Z) (only parsing).

(** A literal of the source, as the list of its code points. *)
Definition lit (s : string) : str :=
  map (fun a => Z.of_N (N_of_ascii a)) (list_ascii_of_string s).

(** [b'A' * n]: a negative count gives the empty sequence. *)
Definition bytes_mul (b : byte) (n : Z) : bytes := repeat b (Z.to_nat n).

(** [len(x)] as a Python int. *)
Definition len {A} (l : list A) : Z := Z.of_nat (length l).

(** ** Exceptions and outcomes *)

(** [conn.result] of ldap3: the dictionary of the last operation's result. *)
Record ldap_result := {
  result : Z;
  description : str;
  message : str
}.

Inductive exn :=
| NoResultError (base filter : str)
| TooManyResultsError (base filter : str) (entries : list (gmap string str))
| ResultError (res : ldap_result)
| KeyError (key : string)
| IndexError
| ValueError
| TypeError
| AttributeError
| UnicodeEncodeError
| StructError
| PeerError (detail : str).

Inductive outcome (A : Type) :=
| Return (a : A)
| Raise (e : exn).
Arguments Return {A} a.
Arguments Raise {A} e.

#[global] Instance outcome_ret : MRet outcome := @Return.
#[global] Instance outcome_bind : MBind outcome := fun A B f x =>
  match x with
  | Return a => f a
  | Raise e => Raise e
  end.

(** ** struct.pack and int() *)

(** [pack('<' + fmt, v)] for an unsigned field of [n] octets. *)
Fixpoint le_octets (n : nat) (v : Z) : bytes :=
  match n with
  | O => []
  | S n' => (v mod 256) :: le_octets n' (v / 256)
  end.

Definition pack_le (n : nat) (v : Z) : outcome bytes :=
  if (0 <=? v) && (v <? 256 ^ Z.of_nat n) then mret (le_octets n v)
  else Raise StructError.

(** [pack('>' + fmt, v)]. *)
Definition pack_be (n : nat) (v : Z) : outcome bytes :=
  if (0 <=? v) && (v <? 256 ^ Z.of_nat n) then mret (rev (le_octets n v))
  else Raise StructError.

Definition digit_val (c : Z) : option Z :=
  if (48 <=? c) && (c <=? 57) then Some (c - 48) else None.

Definition hex_val (c : Z) : option Z :=
  if (48 <=? c) && (c <=? 57) then Some (c - 48)
  else if (65 <=? c) && (c <=? 70) then Some (c - 55)
  else if (97 <=? c) && (c <=? 102) then Some (c - 87)
  else None.

(** Accumulates the digits of [s] in base [b], most significant first. *)
Fixpoint digits_acc (val : Z -> option Z) (b : Z) (acc : Z) (s : str)
  : option Z :=
  match s with
  | [] => Some acc
  | c :: s' =>
      match val c with
      | Some d => digits_acc val b (b * acc + d) s'
      | None => None
      end
  end.

(** The decimal digits of Unicode (category Nd, Unicode 15): each run of
    ten code points is given by its digit zero. *)
Definition decimal_zeros : list Z :=
  [0x0030; 0x0660; 0x06F0; 0x07C0; 0x0966; 0x09E6; 0x0A66; 0x0AE6; 0x0B66;
   0x0BE6; 0x0C66; 0x0CE6; 0x0D66; 0x0DE6; 0x0E50; 0x0ED0; 0x0F20; 0x1040;
   0x1090; 0x17E0; 0x1810; 0x1946; 0x19D0; 0x1A80; 0x1A90; 0x1B50; 0x1BB0;
   0x1C40; 0x1C50; 0xA620; 0xA8D0; 0xA900; 0xA9D0; 0xA9F0; 0xAA50; 0xABF0;
   0xFF10; 0x104A0; 0x10D30; 0x11066; 0x110F0; 0x11136; 0x111D0; 0x112F0;
   0x11450; 0x114D0; 0x11650; 0x116C0; 0x11730; 0x118E0; 0x11950; 0x11C50;
   0x11D50; 0x11DA0; 0x11F50; 0x16A60; 0x16AC0; 0x16B50; 0x1D7CE; 0x1D7D8;
   0x1D7E2; 0x1D7EC; 0x1D7F6; 0x1E140; 0x1E2F0; 0x1E4F0; 0x1E950; 0x1FBF0].

(** The value of a decimal digit of Unicode, ASCII digits included. *)
Definition unicode_decimal (c : Z) : option Z :=
  match List.find (fun z => (z <=? c) && (c <=? z + 9)) decimal_zeros with
  | Some z => Some (c - z)
  | None => None
  end.

(** The white space of Unicode above ASCII. *)
Definition unicode_space (c : Z) : bool :=
  bool_decide (c ∈ [0x85; 0xA0; 0x1680; 0x2028; 0x2029; 0x202F; 0x205F;
                    0x3000])
  || (0x2000 <=? c) && (c <=? 0x200A).

(** The white space that the parser of integers skips: tab to carriage
    return, and the space. *)
Definition c_space (c : Z) : bool := (9 <=? c) && (c <=? 13) || (c =? 32).

(** What [int] makes of a character before it parses: ASCII is kept, a
    white space becomes a space, a decimal digit its ASCII digit and
    anything else a question mark, on which the parse fails. *)
Definition to_ascii (c : Z) : Z :=
  if c <? 127 then c
  else if unicode_space c then 32
  else match unicode_decimal c with
       | Some d => 48 + d
       | None => 63
       end.

Fixpoint skip_spaces (s : str) : str :=
  match s with
  | [] => []
  | c :: s' => if c_space c then skip_spaces s' else s
  end.

(** The digits that follow a first digit: a single underscore may stand
    between two digits. Gives the value, the number of digits and what is
    left. *)
Fixpoint digit_run (acc : Z) (count : nat) (s : str)
  : option (Z * nat * str) :=
  match s with
  | [] => Some (acc, count, [])
  | c :: s' =>
      match digit_val c with
      | Some d => digit_run (10 * acc + d) (S count) s'
      | None =>
          if c =? 95 then
            match s' with
            | [] => None
            | c' :: s'' =>
                match digit_val c' with
                | Some d => digit_run (10 * acc + d) (S count) s''
                | None => None
                end
            end
          else Some (acc, count, s)
      end
  end.

(** The default limit on the number of digits of a decimal string. *)
Definition max_str_digits : nat := 4300.

(** [int(s)] for a string: white space around, an optional sign, decimal
    digits of any script with single underscores between them. Anything
    else raises [ValueError]. *)
Definition int_of_str (s : str) : outcome Z :=
  let s := skip_spaces (map to_ascii s) in
  let '(sign, s) := match s with
                    | 43 :: s' => (1, s')
                    | 45 :: s' => (-1, s')
                    | _ => (1, s)
                    end in
  match s with
  | [] => Raise ValueError
  | c :: s' =>
      match digit_val c with
      | None => Raise ValueError
      | Some d =>
          match digit_run d 1 s' with
          | None => Raise ValueError
          | Some (v, count, rest) =>
              if bool_decide (skip_spaces rest = [])
                 && (count <=? max_str_digits)%nat
              then Return (sign * v)
              else Raise ValueError
          end
      end
  end.

(** [s.split(sep)] for a one-character separator. *)
Fixpoint split_on (sep : Z) (s : str) : list str :=
  match s with
  | [] => [[]]
  | c :: s' =>
      if c =? sep then [] :: split_on sep s'
      else match split_on sep s' with
           | [] => [[c]]
           | w :: ws => (c :: w) :: ws
           end
  end.

(** [items[i]]: raises [IndexError] out of range. *)
Definition item {A} (l : list A) (i : nat) : outcome A :=
  match l !! i with
  | Some a => Return a
  | None => Raise IndexError
  end.

(** ** impacket.uuid *)

Module uuid.

(** [binascii.unhexlify]: pairs of ASCII hexadecimal digits. *)
Fixpoint unhexlify (s : str) : outcome bytes :=
  match s with
  | [] => mret []
  | [_] => Raise ValueError
  | a :: b :: s' =>
      match hex_val a, hex_val b with
      | Some x, Some y =>
          r ← unhexlify s'; mret ((16 * x + y) :: r)
      | _, _ => Raise ValueError
      end
  end.

(** A character of the class [[\dA-Fa-f]] and its value for [int(x, 16)]:
    a decimal digit of any script or one of the six letters. *)
Definition hex_digit (c : Z) : option Z :=
  match unicode_decimal c with
  | Some d => Some d
  | None =>
      if (65 <=? c) && (c <=? 70) then Some (c - 55)
      else if (97 <=? c) && (c <=? 102) then Some (c - 87)
      else None
  end.

(** One group [([\dA-Fa-f]{n})] of the pattern, read as [int(x, 16)]. *)
Definition hex_group (n : nat) (s : str) : option (Z * str) :=
  if decide (n <= length s)%nat then
    match digits_acc hex_digit 16 0 (take n s) with
    | Some v => Some (v, drop n s)
    | None => None
    end
  else None.

Definition dash (s : str) : option str :=
  match s with
  | 45 :: s' => Some s'
  | _ => None
  end.

(** [re.match] of the GUID pattern: anchored at the start only. *)
Definition match_guid (s : str) : option (Z * Z * Z * Z * Z * Z) :=
  '(u1, s) ← hex_group 8 s; s ← dash s;
  '(u2, s) ← hex_group 4 s; s ← dash s;
  '(u3, s) ← hex_group 4 s; s ← dash s;
  '(u4, s) ← hex_group 4 s; s ← dash s;
  '(u5, s) ← hex_group 4 s;
  '(u6, s) ← hex_group 8 s;
  Some (u1, u2, u3, u4, u5, u6).

(** A string without a dash is read as hexadecimal octets; a dashed string
    is matched against the GUID pattern, its first three groups packed
    least significant octet first and its last three most significant
    first. Without a match the call fails on the missing match object. *)
Definition string_to_bin (uuid : str) : outcome bytes :=
  if bool_decide (45 ∈ uuid) then
    match match_guid uuid with
    | None => Raise AttributeError
    | Some (u1, u2, u3, u4, u5, u6) =>
        a ← pack_le 4 u1;
        b ← pack_le 2 u2;
        c ← pack_le 2 u3;
        d ← pack_be 2 u4;
        e ← pack_be 2 u5;
        f ← pack_be 4 u6;
        mret (a ++ b ++ c ++ d ++ e ++ f)
    end
  else unhexlify uuid.

End uuid.

(** ** impacket.ldap.ldaptypes *)

Module ldaptypes.

Record LDAP_SID := {
  Revision : Z;
  SubAuthorityCount : Z;
  IdentifierAuthority : bytes;
  SubLen : Z;
  SubAuthority : bytes
}.

(** [pack('<L', int(items[i+3]))] for each sub-authority, in order. *)
Fixpoint pack_subauthorities (items : list str) : outcome bytes :=
  match items with
  | [] => mret []
  | x :: rest =>
      v ← int_of_str x;
      b ← pack_le 4 v;
      r ← pack_subauthorities rest;
      mret (b ++ r)
  end.

Definition fromCanonical (canonical : str) : outcome LDAP_SID :=
  let items := split_on 45 canonical in
  r1 ← item items 1;
  revision ← int_of_str r1;
  r2 ← item items 2;
  authority ← int_of_str r2;
  value ← pack_le 1 authority;
  let count := len items - 3 in
  sub ← pack_subauthorities (drop 3 items);
  mret {| Revision := revision;
          SubAuthorityCount := count;
          IdentifierAuthority := [0; 0; 0; 0; 0] ++ value;
          SubLen := count;
          SubAuthority := sub |}.

(** The binary form of a SID: revision, count, authority, sub-authorities. *)
Definition LDAP_SID_getData (sid : LDAP_SID) : outcome bytes :=
  r ← pack_le 1 (Revision sid);
  c ← pack_le 1 (SubAuthorityCount sid);
  mret (r ++ c ++ IdentifierAuthority sid ++ SubAuthority sid).

(** Type tags and flag bits of the ACE structures. *)
Definition ACCESS_ALLOWED_ACE_TYPE : Z := 0x00.
Definition ACCESS_ALLOWED_OBJECT_ACE_TYPE : Z := 0x05.
Definition ACE_OBJECT_TYPE_PRESENT : Z := 0x01.
Definition ACE_INHERITED_OBJECT_TYPE_PRESENT : Z := 0x02.

(** The body of an ACE: [ACCESS_ALLOWED_ACE] has a mask and a SID;
    [ACCESS_ALLOWED_OBJECT_ACE] adds the flags and the two object types. *)
Inductive ace_body :=
| ACCESS_ALLOWED_ACE (Mask : Z) (Sid : LDAP_SID)
| ACCESS_ALLOWED_OBJECT_ACE (Mask : Z) (Flags : Z)
    (ObjectType InheritedObjectType : bytes) (Sid : LDAP_SID).

Record ACE := {
  AceType : Z;
  AceFlags : Z;
  Ace : ace_body
}.

Record ACL := {
  AclRevision : Z;
  Sbz1 : Z;
  Sbz2 : Z;
  aces : list ACE
}.

(** A [':'] field of a structure holds raw bytes or a structure. *)
Inductive field (A : Type) :=
| raw (b : bytes)
| structure (a : A).
Arguments raw {A} b.
Arguments structure {A} a.

Record SR_SECURITY_DESCRIPTOR := {
  sd_Revision : bytes;
  sd_Sbz1 : bytes;
  Control : Z;
  OwnerSid : field LDAP_SID;
  GroupSid : field LDAP_SID;
  Sacl : field ACL;
  Dacl : field ACL
}.

End ldaptypes.
Import ldaptypes.

(** ** createACE *)

(** The [sid] argument: a canonical string or an [LDAP_SID] object. *)
Inductive sid_arg :=
| sid_str (s : str)
| sid_obj (sid : LDAP_SID).

(** The default of [accesstype]: full control. *)
Definition full_control : Z := 983551.

(** [privguid] is [None] by default. The type tag and the flags of [nace]
    are set first (lines 17 and 18); [acedata] is the body chosen on
    [privguid] (lines 20 to 26), which then receives the mask and the SID
    (lines 28 to 35). *)
Definition createACE (sid : sid_arg) (privguid : option str) (accesstype : Z)
  : outcome ACE :=
  let nace_AceType := ACCESS_ALLOWED_OBJECT_ACE_TYPE in
  let nace_AceFlags := 0x00 in
  acedata ← match privguid with
            | None => mret ACCESS_ALLOWED_ACE
            | Some g =>
                object_type ← uuid.string_to_bin g;
                mret (fun mask s =>
                        ACCESS_ALLOWED_OBJECT_ACE mask ACE_OBJECT_TYPE_PRESENT
                          object_type [] s)
            end;
  acedata_Sid ← match sid with
                | sid_str s => fromCanonical s
                | sid_obj o => mret o
                end;
  mret {| AceType := nace_AceType;
          AceFlags := nace_AceFlags;
          Ace := acedata accesstype acedata_Sid |}.

(** ** createEmptySD *)

Definition createEmptySD : outcome SR_SECURITY_DESCRIPTOR :=
  owner ← fromCanonical (lit "S-1-5-32-544");
  let acl := {| AclRevision := 4; Sbz1 := 0; Sbz2 := 0; aces := [] |} in
  mret {| sd_Revision := [0x01];
          sd_Sbz1 := [0x00];
          Control := 32772;
          OwnerSid := structure owner;
          GroupSid := raw [];
          Sacl := raw [];
          Dacl := structure acl |}.


(** ** str.encode('utf-16le') *)

(** One code point: two octets in the basic plane, a surrogate pair above
    it. A lone surrogate cannot be encoded. *)
Definition encode_code_point (c : Z) : outcome bytes :=
  if (0 <=? c) && (c <? 0xD800) || (0xE000 <=? c) && (c <? 0x10000)
  then mret (le_octets 2 c)
  else if (0x10000 <=? c) && (c <? 0x110000)
  then let v := c - 0x10000 in
       mret (le_octets 2 (0xD800 + v / 0x400) ++
             le_octets 2 (0xDC00 + v mod 0x400))
  else Raise UnicodeEncodeError.

Fixpoint encode_utf_16le (s : str) : outcome bytes :=
  match s with
  | [] => mret []
  | c :: s' =>
      b ← encode_code_point c;
      r ← encode_utf_16le s';
      mret (b ++ r)
  end.

(** ** Cryptodome.Cipher.ARC4 *)

Module ARC4.

(** [S[i]] for an index kept in [0, 256). *)
Definition at_ (box : list Z) (i : Z) : Z := nth (Z.to_nat i) box 0.

(** [S[i], S[j] = S[j], S[i]]. *)
Definition swap (box : list Z) (i j : Z) : list Z :=
  <[Z.to_nat j := at_ box i]> (<[Z.to_nat i := at_ box j]> box).

Definition identity_permutation : list Z := map Z.of_nat (seq 0 256).

(** Key scheduling: one pass over the 256 positions. *)
Definition ksa_step (key : bytes) (st : Z * list Z) (i : nat) : Z * list Z :=
  let '(j, box) := st in
  let i := Z.of_nat i in
  let j := (j + at_ box i + at_ key (i mod len key)) mod 256 in
  (j, swap box i j).

Definition ksa (key : bytes) : list Z :=
  snd (fold_left (ksa_step key) (seq 0 256) (0, identity_permutation)).

(** The cipher object: the permutation and the two indices. *)
Record cipher := { S_box : list Z; idx_i : Z; idx_j : Z }.

(** [key_size = range(1, 257)]. *)
Definition key_size_ok (key : bytes) : bool :=
  (1 <=? len key) && (len key <? 257).

Definition new (key : bytes) : outcome cipher :=
  if key_size_ok key
  then mret {| S_box := ksa key; idx_i := 0; idx_j := 0 |}
  else Raise ValueError.

(** Keystream generation, one octet of output per octet of input. *)
Fixpoint prga (box : list Z) (i j : Z) (data : bytes) : bytes :=
  match data with
  | [] => []
  | b :: rest =>
      let i := (i + 1) mod 256 in
      let j := (j + at_ box i) mod 256 in
      let box := swap box i j in
      let k := at_ box ((at_ box i + at_ box j) mod 256) in
      Z.lxor b k :: prga box i j rest
  end.

Definition encrypt (c : cipher) (plaintext : bytes) : bytes :=
  prga (S_box c) (idx_i c) (idx_j c) plaintext.

End ARC4.

(** ** impacket.dcerpc.v5.samr: the password structures *)

Module samr.

(** [('Buffer', '512s'), ('Length', ULONG)]. *)
Record SAMPR_USER_PASSWORD := { Buffer : bytes; Length : Z }.

(** [('Buffer', '516s')]. *)
Record SAMPR_ENCRYPTED_USER_PASSWORD := { enc_Buffer : bytes }.

(** [pack('512s', b)]: truncated, or padded with null octets, to fit. *)
Definition pack_s (n : nat) (b : bytes) : bytes :=
  take n b ++ repeat 0 (n - length b)%nat.

(** The ['<L=0'] field of [ULONG]: a value that does not fit is replaced
    by the default of the field. *)
Definition pack_ULONG (v : Z) : bytes :=
  match pack_le 4 v with
  | Return b => b
  | Raise _ => le_octets 4 0
  end.

Definition SAMPR_USER_PASSWORD_getData (p : SAMPR_USER_PASSWORD) : bytes :=
  pack_s 512 (Buffer p) ++ pack_ULONG (Length p).

Definition UserInternal5Information : Z := 24.

End samr.
Import samr.

(** ** cryptPassword *)

(** Lines 112 to 116: the clear-text structure. *)
Definition sam_user_pass (password : str) : outcome SAMPR_USER_PASSWORD :=
  encoded_pass ← encode_utf_16le password;
  let plen := len encoded_pass in
  mret {| Buffer := bytes_mul 0x41 (512 - plen) ++ encoded_pass;
          Length := plen |}.

Definition cryptPassword (session_key : bytes) (password : str)
  : outcome SAMPR_ENCRYPTED_USER_PASSWORD :=
  sam_user_pass ← sam_user_pass password;
  let pwdBuff := SAMPR_USER_PASSWORD_getData sam_user_pass in
  rc4 ← ARC4.new session_key;
  let encBuf := ARC4.encrypt rc4 pwdBuff in
  mret {| enc_Buffer := encBuf |}.

Definition SystemLibraryDTC : bytes := lit "SystemLibraryDTC".

(** ** Stateful calls: a state-and-exception monad *)

(** A call on a mutable object [St]: it returns or raises, and leaves the
    object in a new state either way. *)
Definition io (St A : Type) : Type := St -> outcome A * St.

#[global] Instance io_ret {St} : MRet (io St) := fun A a st => (Return a, st).
#[global] Instance io_bind {St} : MBind (io St) := fun A B f m st =>
  match m st with
  | (Return a, st') => f a st'
  | (Raise e, st') => (Raise e, st')
  end.

Definition get {St} : io St St := fun st => (Return st, st).
Definition raise {St A} (e : exn) : io St A := fun st => (Raise e, st).
Definition lift {St A} (x : outcome A) : io St A := fun st => (x, st).

(** ** The ldap3 connection *)

Inductive modify_op :=
| MODIFY_ADD
| MODIFY_DELETE
| MODIFY_REPLACE
| MODIFY_INCREMENT.

#[global] Instance modify_op_eq_dec : EqDecision modify_op.
Proof. solve_decision. Defined.

Inductive ldap_request :=
| SearchRequest (search_base search_filter : str)
    (attributes : option (list str))
| ModifyRequest (dn : str) (changes : gmap string (modify_op * list Z)).

(** A value of an attribute as ldap3 hands it over: an [int] when the
    schema of the server formats it, else the text that the server sent. *)
Inductive py_value :=
| py_int (z : Z)
| py_str (s : str).

(** [int(attribute.value)]: the [value] of an attribute is its single
    value, [None] when it has none and the list of them when it has
    several; [int] refuses [None] and a list. *)
Definition int_of_value (values : list py_value) : outcome Z :=
  match values with
  | [py_int z] => Return z
  | [py_str s] => int_of_str s
  | _ => Raise TypeError
  end.

(** What a search leaves on the connection: [conn.response] (a list of
    dictionaries), [conn.entries] (for each entry, attribute name to the
    values of the attribute) and [conn.result]. *)
Record search_answer := {
  ans_response : list (gmap string str);
  ans_entries : list (gmap string (list py_value));
  ans_result : ldap_result
}.

(** The directory service behind the connection: any function of the
    requests sent so far and of the current one. It may make ldap3 raise. *)
Record directory := {
  on_search : list ldap_request -> str -> str -> option (list str) ->
              outcome search_answer;
  on_modify : list ldap_request -> str -> gmap string (modify_op * list Z) ->
              outcome ldap_result
}.

Record Connection := {
  server_info_other : gmap string (list str);
  response : list (gmap string str);
  entries : list (gmap string (list py_value));
  conn_result : ldap_result;
  sent : list ldap_request;
  peer : directory
}.

(** [conn.search(search_base, search_filter, attributes=...)]. *)
Definition search (search_base search_filter : str)
    (attributes : option (list str)) : io Connection unit := fun conn =>
  let req := SearchRequest search_base search_filter attributes in
  match on_search (peer conn) (sent conn) search_base search_filter
          attributes with
  | Return a =>
      (Return (),
       {| server_info_other := server_info_other conn;
          response := ans_response a;
          entries := ans_entries a;
          conn_result := ans_result a;
          sent := sent conn ++ [req];
          peer := peer conn |})
  | Raise e =>
      (Raise e,
       {| server_info_other := server_info_other conn;
          response := response conn;
          entries := entries conn;
          conn_result := conn_result conn;
          sent := sent conn ++ [req];
          peer := peer conn |})
  end.

(** [conn.modify(dn, changes)]. *)
Definition modify (dn : str) (changes : gmap string (modify_op * list Z))
  : io Connection unit := fun conn =>
  let req := ModifyRequest dn changes in
  match on_modify (peer conn) (sent conn) dn changes with
  | Return r =>
      (Return (),
       {| server_info_other := server_info_other conn;
          response := response conn;
          entries := entries conn;
          conn_result := r;
          sent := sent conn ++ [req];
          peer := peer conn |})
  | Raise e =>
      (Raise e,
       {| server_info_other := server_info_other conn;
          response := response conn;
          entries := entries conn;
          conn_result := conn_result conn;
          sent := sent conn ++ [req];
          peer := peer conn |})
  end.

(** [d[key]]: raises [KeyError] when the key is missing. *)
Definition getitem {V} (d : gmap string V) (key : string) : outcome V :=
  match d !! key with
  | Some v => Return v
  | None => Raise (KeyError key)
  end.

(** ** str.lower and the [in] test on strings *)

(** [s.lower()] on the ASCII letters. The other code points are left as
    they are: Python maps none of them to a character of the patterns that
    [resolvDN] looks for. *)
Definition lower (s : str) : str :=
  map (fun c => if (65 <=? c) && (c <=? 90) then c + 32 else c) s.

Fixpoint starts_with (p s : str) : bool :=
  match p, s with
  | [], _ => true
  | _ :: _, [] => false
  | a :: p', b :: s' => (a =? b) && starts_with p' s'
  end.

(** [p in s]. *)
Fixpoint contains (p s : str) : bool :=
  starts_with p s ||
  match s with
  | [] => false
  | _ :: s' => contains p s'
  end.

(** ** getDefaultNamingContext *)

Definition getDefaultNamingContext : io Connection str :=
  conn ← get;
  values ← lift (getitem (server_info_other conn) "defaultNamingContext");
  lift (item values 0).

(** ** resolvDN *)

(** Lines 75 to 83: the filter of an identity that is not a DN. *)
Definition ldap_filter (identity : str) : str :=
  if contains (lit "s-1-") (lower identity)
  then lit "(objectSid=" ++ identity ++ lit ")"
  else if contains (lit "{") identity
  then lit "(objectGUID=" ++ identity ++ lit ")"
  else lit "(sAMAccountName=" ++ identity ++ lit ")".

(** [e.get('type', '') == 'searchResEntry']. *)
Definition is_searchResEntry (e : gmap string str) : Prop :=
  default (lit "") (e !! "type") = lit "searchResEntry".

#[global] Instance is_searchResEntry_dec e : Decision (is_searchResEntry e).
Proof. unfold is_searchResEntry. apply _. Defined.

Definition resolvDN (identity : str) : io Connection str :=
  if contains (lit "dc=") (lower identity) then mret identity
  else
    let ldap_filter := ldap_filter identity in
    naming_context ← getDefaultNamingContext;
    search naming_context ldap_filter None;;
    conn ← get;
    let entries := filter is_searchResEntry (response conn) in
    if len entries <? 1
    then raise (NoResultError naming_context ldap_filter)
    else if 1 <? len entries
    then raise (TooManyResultsError naming_context ldap_filter entries)
    else
      e ← lift (item entries 0);
      lift (getitem e "dn").

(** ** userAccountControl *)

Definition userAccountControl (identity : str) (enable : str) (flag : Z)
  : io Connection unit :=
  let enable := bool_decide (enable = lit "True") in
  user_dn ← resolvDN identity;
  search user_dn (lit "(objectClass=*)") (Some [lit "userAccountControl"]);;
  conn ← get;
  entry ← lift (item (entries conn) 0);
  attribute ← lift (getitem entry "userAccountControl");
  userAccountControl ← lift (int_of_value attribute);
  let userAccountControl :=
    if enable then Z.lor userAccountControl flag
    else Z.land userAccountControl (Z.lnot flag) in
  modify user_dn
    {[ "userAccountControl" := (MODIFY_REPLACE, [userAccountControl]) ]};;
  conn ← get;
  if result (conn_result conn) =? 0 then mret ()
  else raise (ResultError (conn_result conn)).

(** ** The SAMR transport *)

(** The request of [SamrSetInformationUser2], as [rpcChangePassword] fills
    it: [req['Buffer']['tag']] and the [Internal5] arm of the union. *)
Record SamrSetInformationUser2 := {
  UserHandle : bytes;
  UserInformationClass : Z;
  Buffer_tag : Z;
  Internal5_UserPassword : SAMPR_ENCRYPTED_USER_PASSWORD;
  Internal5_PasswordExpired : Z
}.

(** The remote calls made through [dce], with the arguments the source
    passes. *)
Inductive samr_call :=
| hSamrConnect (serverName : str)
| hSamrLookupDomainInSamServer (serverHandle : bytes) (name : str)
| hSamrOpenDomain (serverHandle : bytes) (domainId : bytes)
| hSamrLookupNamesInDomain (domainHandle : bytes) (names : list str)
| hSamrOpenUser (domainHandle : bytes) (userId : Z)
| request (req : SamrSetInformationUser2).

Record SamrSetInformationUser2Response := { ErrorCode : Z }.

(** The SAMR server: each answer is any function of the calls made so far
    and of the arguments; a failed call makes impacket raise. The fields
    are the parts of the answers that [rpcChangePassword] reads:
    [ServerHandle], [DomainId], [DomainHandle], [RelativeIds.Element] and
    the answer to [hSamrOpenUser] reduced to its [UserHandle]. *)
Record samr_server := {
  on_connect : list samr_call -> str -> outcome bytes;
  on_lookup_domain : list samr_call -> bytes -> str -> outcome bytes;
  on_open_domain : list samr_call -> bytes -> bytes -> outcome bytes;
  on_lookup_names : list samr_call -> bytes -> list str -> outcome (list Z);
  on_open_user : list samr_call -> bytes -> Z -> outcome bytes;
  on_request : list samr_call -> SamrSetInformationUser2 ->
               outcome SamrSetInformationUser2Response
}.

(** [conn] of [rpcChangePassword]: [conn.conf.host], [conn.conf.domain],
    what [conn.getSamrConnection()] gives, and the calls made so far. *)
Record RpcConnection := {
  conf_host : str;
  conf_domain : str;
  samr_connection : outcome samr_server;
  calls : list samr_call
}.

(** One remote call: it is recorded, then answered. *)
Definition remote {A} (c : samr_call)
    (answer : list samr_call -> outcome A) : io RpcConnection A := fun conn =>
  (answer (calls conn),
   {| conf_host := conf_host conn;
      conf_domain := conf_domain conn;
      samr_connection := samr_connection conn;
      calls := calls conn ++ [c] |}).

Definition getSamrConnection : io RpcConnection samr_server :=
  conn ← get; lift (samr_connection conn).

(** ** rpcChangePassword *)

Definition rpcChangePassword (target new_pass : str)
  : io RpcConnection SamrSetInformationUser2Response :=
  dce ← getSamrConnection;
  conn ← get;
  let serverName := conf_host conn ++ [0] in
  server_handle ←
    remote (hSamrConnect serverName)
      (fun h => on_connect dce h serverName);
  domainSID ←
    remote (hSamrLookupDomainInSamServer server_handle (conf_domain conn))
      (fun h => on_lookup_domain dce h server_handle (conf_domain conn));
  domain_handle ←
    remote (hSamrOpenDomain server_handle domainSID)
      (fun h => on_open_domain dce h server_handle domainSID);
  relative_ids ←
    remote (hSamrLookupNamesInDomain domain_handle [target])
      (fun h => on_lookup_names dce h domain_handle [target]);
  userRID ← lift (item relative_ids 0);
  opened_user ←
    remote (hSamrOpenUser domain_handle userRID)
      (fun h => on_open_user dce h domain_handle userRID);
  user_password ← lift (cryptPassword SystemLibraryDTC new_pass);
  let req := {| UserHandle := opened_user;
                UserInformationClass := UserInternal5Information;
                Buffer_tag := UserInternal5Information;
                Internal5_UserPassword := user_password;
                Internal5_PasswordExpired := 0 |} in
  resp ← remote (request req) (fun h => on_request dce h req);
  mret resp.

(** * The vocabulary of the statements *)

(** The well-known SID of BUILTIN\Administrators. *)
Definition administrators_sid : LDAP_SID :=
  {| Revision := 1;
     SubAuthorityCount := 2;
     IdentifierAuthority := [0; 0; 0; 0; 0; 5];
     SubLen := 2;
     SubAuthority := [32; 0; 0; 0; 0x20; 0x02; 0; 0] |}.

(** [p] occurs in [s]. *)
Definition occurs (p s : str) : Prop :=
  exists pre post, s = pre ++ p ++ post.

(** [p] occurs in [s] when the case of ASCII letters is ignored. *)
Definition occurs_ignoring_case (p s : str) : Prop :=
  exists pre mid post, s = pre ++ mid ++ post /\ lower mid = lower p.

(** The connection after a search that is answered by [ans]. *)
Definition searched (conn : Connection) (req : ldap_request)
    (ans : search_answer) : Connection :=
  {| server_info_other := server_info_other conn;
     response := ans_response ans;
     entries := ans_entries ans;
     conn_result := ans_result ans;
     sent := sent conn ++ [req];
     peer := peer conn |}.

(** The connection after a modify that is answered by [r]. *)
Definition modified (conn : Connection) (req : ldap_request)
    (r : ldap_result) : Connection :=
  {| server_info_other := server_info_other conn;
     response := response conn;
     entries := entries conn;
     conn_result := r;
     sent := sent conn ++ [req];
     peer := peer conn |}.

(** What [resolvDN] does once the search is answered: only the entries of
    type [searchResEntry] are looked at. *)
Definition pick_entry (nc flt : str) (found : list (gmap string str))
  : outcome str :=
  if len found <? 1 then Raise (NoResultError nc flt)
  else if 1 <? len found then Raise (TooManyResultsError nc flt found)
  else e ← item found 0; getitem e "dn".

(** The value that line 136 to 139 compute from the value read. *)
Definition toggled (enable : str) (v flag : Z) : Z :=
  if bool_decide (enable = lit "True") then Z.lor v flag
  else Z.land v (Z.lnot flag).

(** The read of the attribute and the replace-modify of its new value. *)
Definition read_request (dn : str) : ldap_request :=
  SearchRequest dn (lit "(objectClass=*)") (Some [lit "userAccountControl"]).

Definition replace_request (dn : str) (v : Z) : ldap_request :=
  ModifyRequest dn {[ "userAccountControl" := (MODIFY_REPLACE, [v]) ]}.

(** * A sample directory and a sample SAMR server *)

(** A password of 257 characters: 514 octets once encoded. *)
Definition long_password : str := repeat 97 257.

Definition corp_base : str := lit "DC=corp,DC=test".
Definition svc_sid : str :=
  lit "S-1-5-21-1111111111-2222222222-3333333333-1104".
Definition svc_dn : str := lit "CN=svc,CN=Users,DC=corp,DC=test".

Definition success : ldap_result :=
  {| result := 0; description := lit "success"; message := lit "" |}.

Definition svc_entry : gmap string str :=
  {[ "type" := lit "searchResEntry"; "dn" := svc_dn ]}.

Definition referral : gmap string str :=
  {[ "type" := lit "searchResRef" ]}.

(** The directory answers the lookup of [svc_sid] with a referral and one
    entry, the read of an object with its [userAccountControl], 0x0200, and
    any other search with a referral alone; every modify succeeds. *)
Definition corp_directory : directory :=
  {| on_search := fun _ _ flt _ =>
       if decide (flt = lit "(objectSid=" ++ svc_sid ++ lit ")")
       then Return {| ans_response := [referral; svc_entry];
                      ans_entries := [];
                      ans_result := success |}
       else if decide (flt = lit "(objectClass=*)")
       then Return {| ans_response := [svc_entry];
                      ans_entries := [ {[ "userAccountControl" := [py_int 0x0200] ]} ];
                      ans_result := success |}
       else Return {| ans_response := [referral];
                      ans_entries := [];
                      ans_result := success |};
     on_modify := fun _ _ _ => Return success |}.

Definition corp_conn : Connection :=
  {| server_info_other := {[ "defaultNamingContext" := [corp_base] ]};
     response := [];
     entries := [];
     conn_result := success;
     sent := [];
     peer := corp_directory |}.

(** The connection once [svc_sid] is resolved on the sample directory. *)
Definition corp_conn_resolved : Connection :=
  searched corp_conn
    (SearchRequest corp_base (lit "(objectSid=" ++ svc_sid ++ lit ")") None)
    {| ans_response := [referral; svc_entry]; ans_entries := [];
       ans_result := success |}.

Definition corp_read : search_answer :=
  {| ans_response := [svc_entry];
     ans_entries := [ {[ "userAccountControl" := [py_int 0x0200] ]} ];
     ans_result := success |}.

(** A sample SAMR server: fixed handles, one account of relative
    identifier 1104, every request accepted. *)
Definition corp_samr : samr_server :=
  {| on_connect := fun _ _ => Return [1];
     on_lookup_domain := fun _ _ _ => Return [1; 4; 0; 0; 0; 0; 0; 5];
     on_open_domain := fun _ _ _ => Return [2];
     on_lookup_names := fun _ _ _ => Return [1104];
     on_open_user := fun _ _ _ => Return [3];
     on_request := fun _ _ => Return {| ErrorCode := 0 |} |}.

Definition corp_rpc : RpcConnection :=
  {| conf_host := lit "dc01.corp.test";
     conf_domain := lit "corp.test";
     samr_connection := Return corp_samr;
     calls := [] |}.

(** ** Further vocabulary and samples *)

(** A code point that UTF-16 can encode: in range and not a surrogate. *)
Definition encodable (c : Z) : Prop :=
  0 <= c < 0xD800 \/ 0xE000 <= c < 0x110000.

(** The value of octets read least significant first. *)
Fixpoint le_value (b : bytes) : Z :=
  match b with
  | [] => 0
  | x :: b' => x + 256 * le_value b'
  end.

(** A connection whose server announced no default naming context. *)
Definition bare_conn : Connection :=
  {| server_info_other := ∅;
     response := [];
     entries := [];
     conn_result := success;
     sent := [];
     peer := corp_directory |}.

(** A directory that cannot be reached: ldap3 raises on every operation. *)
Definition unreachable_directory : directory :=
  {| on_search := fun _ _ _ _ => Raise (PeerError (lit "socket"));
     on_modify := fun _ _ _ => Raise (PeerError (lit "socket")) |}.

Definition unreachable_conn : Connection :=
  {| server_info_other := {[ "defaultNamingContext" := [corp_base] ]};
     response := [];
     entries := [];
     conn_result := success;
     sent := [];
     peer := unreachable_directory |}.

(** A directory that finds the object but whose answers carry no parsed
    entry. *)
Definition hollow_answer : search_answer :=
  {| ans_response := [svc_entry]; ans_entries := []; ans_result := success |}.

Definition hollow_directory : directory :=
  {| on_search := fun _ _ _ _ => Return hollow_answer;
     on_modify := fun _ _ _ => Return success |}.

Definition hollow_conn : Connection :=
  {| server_info_other := {[ "defaultNamingContext" := [corp_base] ]};
     response := [];
     entries := [];
     conn_result := success;
     sent := [];
     peer := hollow_directory |}.

(** A request that is a search, whatever its base, filter and attributes. *)
Definition is_search (req : ldap_request) : Prop :=
  exists base flt attrs, req = SearchRequest base flt attrs.

(** A remote call that prepares the request: any call but [request]. *)
Definition is_preparatory (c : samr_call) : Prop :=
  match c with
  | request _ => False
  | _ => True
  end.

(** RC4 under a key: what [ARC4.new(key).encrypt(data)] gives when the
    key is accepted. *)
Definition rc4 (key data : bytes) : bytes :=
  ARC4.prga (ARC4.ksa key) 0 0 data.

(** The sample password "Passw0rd!" in UTF-16LE. *)
Definition passw0rd_encoded : bytes :=
  [80; 0; 97; 0; 115; 0; 115; 0; 119; 0; 48; 0; 114; 0; 100; 0; 33; 0].

(** A password with a lone surrogate at its end. *)
Definition surrogate_password : str := lit "ab" ++ [0xD800].

(** A SAMR server that maps the name to no relative identifier. *)
Definition nameless_samr : samr_server :=
  {| on_connect := fun _ _ => Return [1];
     on_lookup_domain := fun _ _ _ => Return [1; 4; 0; 0; 0; 0; 0; 5];
     on_open_domain := fun _ _ _ => Return [2];
     on_lookup_names := fun _ _ _ => Return [];
     on_open_user := fun _ _ _ => Return [3];
     on_request := fun _ _ => Return {| ErrorCode := 0 |} |}.

Definition nameless_rpc : RpcConnection :=
  {| conf_host := lit "dc01.corp.test";
     conf_domain := lit "corp.test";
     samr_connection := Return nameless_samr;
     calls := [] |}.

(** * Properties *)

(** ** Octet sequences *)

Lemma length_le_octets n v : length (le_octets n v) = n.
Proof. revert v; induction n as [|n IH]; intros v; simpl; [done | by rewrite IH]. Qed.

Lemma pack_le_inv n v b : pack_le n v = Return b -> b = le_octets n v.
Proof. unfold pack_le. case_match; intros E; [by injection E | discriminate]. Qed.

Lemma pack_be_inv n v b : pack_be n v = Return b -> b = rev (le_octets n v).
Proof. unfold pack_be. case_match; intros E; [by injection E | discriminate]. Qed.

Lemma length_pack_le n v b : pack_le n v = Return b -> length b = n.
Proof. intros ->%pack_le_inv. apply length_le_octets. Qed.

Lemma length_pack_be n v b : pack_be n v = Return b -> length b = n.
Proof. intros ->%pack_be_inv. rewrite length_rev. apply length_le_octets. Qed.

Lemma pack_le_fits n v :
  0 <= v < 256 ^ Z.of_nat n -> pack_le n v = Return (le_octets n v).
Proof.
  intros [H1 H2]. unfold pack_le.
  apply Z.leb_le in H1. apply Z.ltb_lt in H2. by rewrite H1, H2.
Qed.

Lemma length_pack_s n b : length (pack_s n b) = n.
Proof. unfold pack_s. rewrite length_app, length_take, repeat_length. lia. Qed.

Lemma pack_s_exact n b : length b = n -> pack_s n b = b.
Proof.
  intros H. unfold pack_s. replace (n - length b)%nat with 0%nat by lia.
  simpl. rewrite app_nil_r. apply take_ge. lia.
Qed.

Lemma pack_s_long n b : (n <= length b)%nat -> pack_s n b = take n b.
Proof.
  intros H. unfold pack_s. replace (n - length b)%nat with 0%nat by lia.
  simpl. apply app_nil_r.
Qed.

Lemma length_pack_ULONG v : length (pack_ULONG v) = 4%nat.
Proof.
  unfold pack_ULONG. destruct (pack_le 4 v) eqn:E.
  - by apply length_pack_le in E.
  - apply length_le_octets.
Qed.

Lemma outcome_bind_inv {A B} (x : outcome A) (f : A -> outcome B) b :
  x ≫= f = Return b -> exists a, x = Return a /\ f a = Return b.
Proof. destruct x as [a|e]; simpl; [eauto | discriminate]. Qed.

(** ** The stream cipher keeps the length of its input *)

Lemma length_prga data : forall box i j,
  length (ARC4.prga box i j data) = length data.
Proof.
  induction data as [|b rest IH]; intros box i j; simpl; [done|].
  by rewrite IH.
Qed.

Lemma length_encrypt c data : length (ARC4.encrypt c data) = length data.
Proof. apply length_prga. Qed.

Lemma new_accepts key :
  ARC4.key_size_ok key = true ->
  ARC4.new key = Return {| ARC4.S_box := ARC4.ksa key;
                           ARC4.idx_i := 0; ARC4.idx_j := 0 |}.
Proof. intros H. unfold ARC4.new. by rewrite H. Qed.

(** The cipher on the published test vector: key "Key", text "Plaintext". *)
Example encrypt_test_vector :
  (c ← ARC4.new (lit "Key"); mret (ARC4.encrypt c (lit "Plaintext")))
  = Return [0xBB; 0xF3; 0x16; 0xE8; 0xD9; 0x40; 0xAF; 0x0A; 0xD3].
Proof. vm_compute. reflexivity. Qed.

(** ** createACE *)

(** The body and the subject of the entry, whatever the GUID: the ACE
    carries the SID object it was given. *)
Lemma createACE_sid_obj_absent sid mask :
  createACE (sid_obj sid) None mask =
  Return {| AceType := ACCESS_ALLOWED_OBJECT_ACE_TYPE;
            AceFlags := 0;
            Ace := ACCESS_ALLOWED_ACE mask sid |}.
Proof. reflexivity. Qed.

(** With a GUID, the entry is object-scoped: the object type is what
    [string_to_bin] gives, the inherited object type is empty and the inner
    flags are the object-type-present bit alone. *)
Lemma createACE_sid_obj_present sid guid mask g :
  uuid.string_to_bin guid = Return g ->
  createACE (sid_obj sid) (Some guid) mask =
  Return {| AceType := ACCESS_ALLOWED_OBJECT_ACE_TYPE;
            AceFlags := 0;
            Ace := ACCESS_ALLOWED_OBJECT_ACE mask ACE_OBJECT_TYPE_PRESENT
                     g [] sid |}.
Proof. intros H. unfold createACE. rewrite H. reflexivity. Qed.

(** A GUID in the dashed form is encoded on 16 octets. *)
Lemma string_to_bin_dashed_length guid g :
  45 ∈ guid -> uuid.string_to_bin guid = Return g -> length g = 16%nat.
Proof.
  intros Hd. unfold uuid.string_to_bin.
  rewrite bool_decide_eq_true_2 by done.
  destruct (uuid.match_guid guid) as [[[[[[u1 u2] u3] u4] u5] u6]|]; [|done].
  intros H.
  apply outcome_bind_inv in H as (a & Ha & H).
  apply outcome_bind_inv in H as (b & Hb & H).
  apply outcome_bind_inv in H as (c & Hc & H).
  apply outcome_bind_inv in H as (d & Hd' & H).
  apply outcome_bind_inv in H as (e & He & H).
  apply outcome_bind_inv in H as (f & Hf & H).
  apply length_pack_le in Ha, Hb, Hc. apply length_pack_be in Hd', He, Hf.
  injection H as <-. rewrite !length_app. lia.
Qed.

(** The scenario of the specification: the everyone SID, full control, no
    GUID. The mask is 983551 and the flags octet is 0; the tag is 5. *)
Example createACE_everyone :
  createACE (sid_str (lit "S-1-1-0")) None full_control =
  Return {| AceType := 5;
            AceFlags := 0;
            Ace := ACCESS_ALLOWED_ACE 983551
                     {| Revision := 1;
                        SubAuthorityCount := 1;
                        IdentifierAuthority := [0; 0; 0; 0; 0; 1];
                        SubLen := 1;
                        SubAuthority := [0; 0; 0; 0] |} |}.
Proof. reflexivity. Qed.

(** C1 (the code departs from it on the first half): for every subject
    and every mask, without a GUID [createACE] builds the body of a plain
    access-allowed ACE, with a mask and a SID and no object-type field, but
    tags it with the object-scoped ACE type, which is not the plain
    access-allowed type. With a GUID the tag is the object-scoped type, the
    object type is the encoding of the GUID, the inherited object type is
    empty and the inner flags are the object-type-present bit alone. The
    call raises only when the GUID or a SID given as a string does not
    parse. *)
Theorem createACE_type_tag (sid : sid_arg) (mask : Z) :
  match createACE sid None mask with
  | Return ace =>
      AceType ace = ACCESS_ALLOWED_OBJECT_ACE_TYPE /\
      AceType ace <> ACCESS_ALLOWED_ACE_TYPE /\
      AceFlags ace = 0 /\
      exists s, Ace ace = ACCESS_ALLOWED_ACE mask s
  | Raise e => exists s, sid = sid_str s /\ fromCanonical s = Raise e
  end /\
  forall guid,
    match createACE sid (Some guid) mask with
    | Return ace =>
        AceType ace = ACCESS_ALLOWED_OBJECT_ACE_TYPE /\
        AceFlags ace = 0 /\
        exists g s,
          uuid.string_to_bin guid = Return g /\
          Ace ace = ACCESS_ALLOWED_OBJECT_ACE mask ACE_OBJECT_TYPE_PRESENT
                      g [] s /\
          Z.land ACE_OBJECT_TYPE_PRESENT ACE_INHERITED_OBJECT_TYPE_PRESENT = 0
    | Raise e =>
        uuid.string_to_bin guid = Raise e \/
        exists s, sid = sid_str s /\ fromCanonical s = Raise e
    end.
Proof.
  split.
  - destruct sid as [s|o]; unfold createACE; simpl.
    + destruct (fromCanonical s) as [o|e] eqn:E; simpl; [|by eauto].
      repeat split; [done | eauto].
    + repeat split; [done | eauto].
  - intros guid. unfold createACE.
    destruct (uuid.string_to_bin guid) as [g|e] eqn:Hg; simpl; [|by left].
    destruct sid as [s|o]; simpl.
    + destruct (fromCanonical s) as [o|e] eqn:E; simpl; [|by eauto].
      repeat split. by exists g, o.
    + repeat split. by exists g, o.
Qed.

(** ** createEmptySD *)

(** C5: [createEmptySD] returns the descriptor with revision octet 1,
    reserved octet 0, control flags 32772, the administrators SID
    S-1-5-32-544 as owner (binary form 01 02 000000000005 20000000
    20020000), no group, no system ACL, and a discretionary ACL of
    revision 4 with both reserved fields zero and no ACE. *)
Theorem createEmptySD_value :
  createEmptySD =
  Return {| sd_Revision := [1];
            sd_Sbz1 := [0];
            Control := 32772;
            OwnerSid := structure administrators_sid;
            GroupSid := raw [];
            Sacl := raw [];
            Dacl := structure {| AclRevision := 4; Sbz1 := 0; Sbz2 := 0;
                                 aces := [] |} |} /\
  fromCanonical (lit "S-1-5-32-544") = Return administrators_sid /\
  LDAP_SID_getData administrators_sid =
  Return [1; 2; 0; 0; 0; 0; 0; 5; 32; 0; 0; 0; 32; 2; 0; 0].
Proof. repeat split. Qed.

(** ** cryptPassword *)

Lemma sam_user_pass_encoded password encoded :
  encode_utf_16le password = Return encoded ->
  sam_user_pass password =
  Return {| Buffer := bytes_mul 0x41 (512 - len encoded) ++ encoded;
            Length := len encoded |}.
Proof. intros H. unfold sam_user_pass. by rewrite H. Qed.

Lemma bytes_mul_short b (encoded : bytes) :
  len encoded <= 512 ->
  bytes_mul b (512 - len encoded) = repeat b (512 - length encoded)%nat.
Proof. intros H. unfold bytes_mul, len in *. f_equal. lia. Qed.

Lemma bytes_mul_long b (encoded : bytes) :
  512 < len encoded -> bytes_mul b (512 - len encoded) = [].
Proof.
  intros H. unfold bytes_mul. replace (Z.to_nat _) with 0%nat; [done|].
  unfold len in *. lia.
Qed.

Lemma cryptPassword_unfold key password encoded :
  ARC4.key_size_ok key = true ->
  encode_utf_16le password = Return encoded ->
  cryptPassword key password =
  Return {| enc_Buffer :=
              ARC4.prga (ARC4.ksa key) 0 0
                (pack_s 512 (bytes_mul 0x41 (512 - len encoded) ++ encoded) ++
                 pack_ULONG (len encoded)) |}.
Proof.
  intros Hk He. unfold cryptPassword.
  rewrite (sam_user_pass_encoded _ _ He). simpl.
  rewrite (new_accepts _ Hk). reflexivity.
Qed.

(** C2 (as the code has it): when the UTF-16LE encoding of the password
    has at most 512 octets, the clear-text structure holds a buffer of
    exactly 512 octets, the encoding at its right end and the octet 0x41
    in front, and a declared length equal to the length of the encoding.
    When the encoding is longer, nothing fails: no length is checked, the
    buffer is the encoding itself with no padding, the declared length is
    still the length of the encoding, and under every key the cipher
    accepts the structure is encrypted, its buffer cut to 512 octets by
    the serialisation. *)
Theorem sam_user_pass_buffer (password : str) (encoded : bytes) :
  encode_utf_16le password = Return encoded ->
  (len encoded <= 512 ->
   sam_user_pass password =
   Return {| Buffer := repeat 0x41 (512 - length encoded)%nat ++ encoded;
             Length := len encoded |} /\
   length (repeat 0x41 (512 - length encoded)%nat ++ encoded) = 512%nat) /\
  (512 < len encoded ->
   sam_user_pass password =
   Return {| Buffer := encoded; Length := len encoded |} /\
   forall key, ARC4.key_size_ok key = true ->
     cryptPassword key password =
     Return {| enc_Buffer :=
                 ARC4.prga (ARC4.ksa key) 0 0
                   (take 512 encoded ++ pack_ULONG (len encoded)) |}).
Proof.
  intros He. split; intros Hlen.
  - rewrite (sam_user_pass_encoded _ _ He), bytes_mul_short by done.
    split; [done|]. rewrite length_app, repeat_length. unfold len in Hlen. lia.
  - rewrite (sam_user_pass_encoded _ _ He), bytes_mul_long by done.
    split; [done|]. intros key Hk.
    rewrite (cryptPassword_unfold _ _ _ Hk He), bytes_mul_long by done.
    simpl. rewrite pack_s_long; [done|]. unfold len in Hlen. lia.
Qed.

Lemma sam_user_pass_buffer_witness :
  sam_user_pass (lit "Passw0rd!") =
  Return {| Buffer := repeat 0x41 494 ++ lit "P" ++ [0] ++ lit "a" ++ [0] ++
                      lit "s" ++ [0] ++ lit "s" ++ [0] ++ lit "w" ++ [0] ++
                      lit "0" ++ [0] ++ lit "r" ++ [0] ++ lit "d" ++ [0] ++
                      lit "!" ++ [0];
            Length := 18 |}.
Proof.
  refine (proj1 (proj1 (sam_user_pass_buffer (lit "Passw0rd!")
    [80; 0; 97; 0; 115; 0; 115; 0; 119; 0; 48; 0; 114; 0; 100; 0; 33; 0]
    _) _)).
  - reflexivity.
  - vm_compute. discriminate.
Defined.

(** C2 as stated fails on a password whose encoding exceeds 512 octets:
    [cryptPassword] returns an encrypted buffer instead of failing. *)
Lemma cryptPassword_long_password_returns :
  (exists encoded, encode_utf_16le long_password = Return encoded /\
                   512 < len encoded) /\
  (exists enc, cryptPassword SystemLibraryDTC long_password = Return enc /\
               length (enc_Buffer enc) = 516%nat).
Proof.
  pose (encoded := flat_map (fun c => [c; 0]) long_password).
  assert (He : encode_utf_16le long_password = Return encoded)
    by (vm_compute; reflexivity).
  split.
  - exists encoded. split; [exact He | vm_compute; reflexivity].
  - eexists. split.
    + apply cryptPassword_unfold with (encoded := encoded);
        [reflexivity | exact He].
    + cbn [enc_Buffer].
      rewrite length_prga, length_app, length_pack_s, length_pack_ULONG.
      reflexivity.
Qed.

(** C10 (as the code has it): for every session key the cipher accepts,
    that is of 1 to 256 octets, and every password whose UTF-16LE encoding
    has at most 512 octets, the buffer returned by [cryptPassword] is the
    RC4 encryption under that key of the 512-octet padded buffer followed
    at once by the declared length on 4 octets, least significant first;
    it has exactly 516 octets, so the length field is inside the encrypted
    data. *)
Theorem cryptPassword_ciphertext (session_key : bytes) (password : str)
    (encoded : bytes) :
  ARC4.key_size_ok session_key = true ->
  encode_utf_16le password = Return encoded ->
  len encoded <= 512 ->
  let padded := repeat 0x41 (512 - length encoded)%nat ++ encoded in
  length padded = 512%nat /\
  exists rc4, ARC4.new session_key = Return rc4 /\
    cryptPassword session_key password =
    Return {| enc_Buffer :=
                ARC4.encrypt rc4 (padded ++ le_octets 4 (len encoded)) |} /\
    length (ARC4.encrypt rc4 (padded ++ le_octets 4 (len encoded)))
    = 516%nat.
Proof.
  intros Hk He Hlen padded.
  assert (Hpad : length padded = 512%nat).
  { unfold padded. rewrite length_app, repeat_length. unfold len in Hlen. lia. }
  split; [done|].
  eexists. split; [by apply new_accepts|].
  split.
  - rewrite (cryptPassword_unfold _ _ _ Hk He), bytes_mul_short by exact Hlen.
    fold padded. rewrite pack_s_exact by exact Hpad.
    assert (Hfit : pack_le 4 (len encoded) = Return (le_octets 4 (len encoded))).
    { apply pack_le_fits. change (256 ^ Z.of_nat 4) with 4294967296.
      unfold len in *. lia. }
    unfold pack_ULONG. rewrite Hfit.
    unfold ARC4.encrypt. cbn [ARC4.S_box ARC4.idx_i ARC4.idx_j].
    reflexivity.
  - rewrite length_encrypt, length_app, length_le_octets. lia.
Qed.

Lemma cryptPassword_ciphertext_witness :
  exists rc4, ARC4.new SystemLibraryDTC = Return rc4 /\
    cryptPassword SystemLibraryDTC (lit "Passw0rd!") =
    Return {| enc_Buffer :=
                ARC4.encrypt rc4
                  ((repeat 0x41 494 ++
                    [80; 0; 97; 0; 115; 0; 115; 0; 119; 0; 48; 0; 114; 0;
                     100; 0; 33; 0]) ++ [18; 0; 0; 0]) |}.
Proof.
  destruct (cryptPassword_ciphertext SystemLibraryDTC (lit "Passw0rd!")
    [80; 0; 97; 0; 115; 0; 115; 0; 119; 0; 48; 0; 114; 0; 100; 0; 33; 0])
    as [_ (rc4 & Hnew & Hc & _)].
  - reflexivity.
  - reflexivity.
  - vm_compute. discriminate.
  - exists rc4. split; [exact Hnew | exact Hc].
Defined.

(** C10 as stated fails on a key the cipher refuses: with the empty key,
    [ARC4.new] raises and no buffer is produced. *)
Lemma cryptPassword_empty_key_raises :
  (exists encoded, encode_utf_16le (lit "Passw0rd!") = Return encoded /\
                   len encoded <= 512) /\
  cryptPassword [] (lit "Passw0rd!") = Raise ValueError.
Proof.
  split; [|reflexivity].
  eexists. split; [reflexivity | vm_compute; discriminate].
Qed.

(** ** Substring tests *)

Lemma starts_with_spec p s :
  starts_with p s = true <-> exists post, s = p ++ post.
Proof.
  revert s; induction p as [|a p IH]; intros s; simpl.
  - split; [eauto | done].
  - destruct s as [|b s].
    + split; [done | intros [post H]; discriminate].
    + rewrite andb_true_iff, Z.eqb_eq, IH. split.
      * intros [-> [post ->]]. eauto.
      * intros [post H]. injection H as -> ->. eauto.
Qed.

Lemma contains_spec p s : contains p s = true <-> occurs p s.
Proof.
  unfold occurs. induction s as [|b s IH]; simpl.
  - rewrite orb_false_r, starts_with_spec. split.
    + intros [post H]. exists [], post. done.
    + intros (pre & post & H). destruct pre; [eauto|discriminate].
  - rewrite orb_true_iff, starts_with_spec, IH. split.
    + intros [[post H] | (pre & post & ->)].
      * exists [], post. done.
      * exists (b :: pre), post. done.
    + intros (pre & post & H). destruct pre as [|c pre].
      * left. eauto.
      * right. injection H as -> ->. eauto.
Qed.

Lemma lower_app s t : lower (s ++ t) = lower s ++ lower t.
Proof. apply map_app. Qed.

Lemma lower_app_inv s u v :
  lower s = u ++ v -> exists s1 s2, s = s1 ++ s2 /\ lower s1 = u /\ lower s2 = v.
Proof.
  unfold lower. intros H.
  apply map_eq_app in H as (s1 & s2 & -> & <- & <-). eauto.
Qed.

Lemma lower_idemp s : lower (lower s) = lower s.
Proof.
  unfold lower. rewrite map_map. apply map_ext. intros c.
  destruct ((65 <=? c) && (c <=? 90)) eqn:E; [|by rewrite E].
  apply andb_true_iff in E as [H1%Z.leb_le H2%Z.leb_le].
  replace (c + 32 <=? 90) with false by (symmetry; apply Z.leb_gt; lia).
  by rewrite andb_false_r.
Qed.

Lemma contains_lower_spec p s :
  contains (lower p) (lower s) = true <-> occurs_ignoring_case p s.
Proof.
  rewrite contains_spec. unfold occurs, occurs_ignoring_case. split.
  - intros (pre & post & H).
    apply lower_app_inv in H as (s1 & s2 & -> & _ & H).
    apply lower_app_inv in H as (s3 & s4 & -> & H & _).
    exists s1, s3, s4. done.
  - intros (pre & mid & post & -> & H).
    exists (lower pre), (lower post). by rewrite !lower_app, H.
Qed.

Lemma contains_ci p s :
  lower p = p ->
  contains p (lower s) = true <-> occurs_ignoring_case p s.
Proof. intros H. rewrite <- contains_lower_spec. by rewrite H. Qed.

(** ** Runs of the connection calls *)

Lemma io_bind_run {St A B} (m : io St A) (f : A -> io St B) st :
  (m ≫= f) st =
  match m st with
  | (Return a, st') => f a st'
  | (Raise e, st') => (Raise e, st')
  end.
Proof. reflexivity. Qed.

Lemma getDefaultNamingContext_run conn nc rest :
  server_info_other conn !! "defaultNamingContext" = Some (nc :: rest) ->
  getDefaultNamingContext conn = (Return nc, conn).
Proof.
  intros H. unfold getDefaultNamingContext, getitem.
  rewrite io_bind_run. simpl. rewrite io_bind_run. unfold lift. by rewrite H.
Qed.

Lemma search_run conn base flt attrs ans :
  on_search (peer conn) (sent conn) base flt attrs = Return ans ->
  search base flt attrs conn =
  (Return (), searched conn (SearchRequest base flt attrs) ans).
Proof. intros H. unfold search. by rewrite H. Qed.

Lemma search_sent conn base flt attrs :
  sent (search base flt attrs conn).2 =
  sent conn ++ [SearchRequest base flt attrs].
Proof. unfold search. by destruct (on_search _ _ _ _ _). Qed.

Lemma resolvDN_dn identity conn :
  contains (lit "dc=") (lower identity) = true ->
  resolvDN identity conn = (Return identity, conn).
Proof. intros H. unfold resolvDN. by rewrite H. Qed.

Lemma resolvDN_lookup identity conn nc rest ans :
  contains (lit "dc=") (lower identity) = false ->
  server_info_other conn !! "defaultNamingContext" = Some (nc :: rest) ->
  on_search (peer conn) (sent conn) nc (ldap_filter identity) None
    = Return ans ->
  resolvDN identity conn =
  (pick_entry nc (ldap_filter identity)
     (filter is_searchResEntry (ans_response ans)),
   searched conn (SearchRequest nc (ldap_filter identity) None) ans).
Proof.
  intros Hdn Hnc Hs. unfold resolvDN. rewrite Hdn.
  rewrite io_bind_run, (getDefaultNamingContext_run _ _ _ Hnc).
  rewrite io_bind_run, (search_run _ _ _ _ _ Hs).
  rewrite io_bind_run. cbn [get response searched].
  unfold pick_entry.
  destruct (len _ <? 1); [done|].
  destruct (1 <? len _); [done|].
  rewrite io_bind_run. unfold lift.
  destruct (item _ 0) as [e|err]; done.
Qed.

Lemma resolvDN_sent identity conn nc rest :
  contains (lit "dc=") (lower identity) = false ->
  server_info_other conn !! "defaultNamingContext" = Some (nc :: rest) ->
  sent (resolvDN identity conn).2 =
  sent conn ++ [SearchRequest nc (ldap_filter identity) None].
Proof.
  intros Hdn Hnc. unfold resolvDN. rewrite Hdn.
  rewrite io_bind_run, (getDefaultNamingContext_run _ _ _ Hnc).
  rewrite io_bind_run.
  pose proof (search_sent conn nc (ldap_filter identity) None) as Hsent.
  destruct (search nc (ldap_filter identity) None conn) as [[[]|err] conn'];
    [|exact Hsent].
  rewrite io_bind_run. cbn [get]. simpl in Hsent.
  destruct (len _ <? 1); [exact Hsent|].
  destruct (1 <? len _); [exact Hsent|].
  rewrite io_bind_run. unfold lift.
  destruct (item _ 0) as [e|err]; exact Hsent.
Qed.

(** ** resolvDN *)

(** C3: for an identity that is not taken for a DN, with the search base
    [nc] of the connection and the directory answering the search,
    [resolvDN] keeps the entries of the response whose type is
    [searchResEntry] and counts them: with none it raises [NoResultError]
    with the base and the filter, with more than one it raises
    [TooManyResultsError] with the base, the filter and those entries, and
    with exactly one it returns the [dn] of that entry. *)
Theorem resolvDN_exactly_one (identity : str) (conn : Connection)
    (nc : str) (rest : list str) (ans : search_answer) :
  contains (lit "dc=") (lower identity) = false ->
  server_info_other conn !! "defaultNamingContext" = Some (nc :: rest) ->
  on_search (peer conn) (sent conn) nc (ldap_filter identity) None
    = Return ans ->
  let found := filter is_searchResEntry (ans_response ans) in
  (length found = 0%nat ->
   (resolvDN identity conn).1
   = Raise (NoResultError nc (ldap_filter identity))) /\
  ((1 < length found)%nat ->
   (resolvDN identity conn).1
   = Raise (TooManyResultsError nc (ldap_filter identity) found)) /\
  (length found = 1%nat ->
   exists e, found = [e] /\
             (resolvDN identity conn).1 = getitem e "dn").
Proof.
  intros Hdn Hnc Hs found.
  rewrite (resolvDN_lookup _ _ _ _ _ Hdn Hnc Hs). fold found.
  cbn [fst]. unfold pick_entry, len. repeat split.
  - intros ->. reflexivity.
  - intros H.
    replace (Z.of_nat (length found) <? 1) with false
      by (symmetry; apply Z.ltb_ge; lia).
    replace (1 <? Z.of_nat (length found)) with true
      by (symmetry; apply Z.ltb_lt; lia).
    reflexivity.
  - intros H. destruct found as [|e [|e' found']]; try discriminate.
    exists e. split; reflexivity.
Qed.

Lemma resolvDN_exactly_one_witness :
  (resolvDN svc_sid corp_conn).1 = Return svc_dn.
Proof.
  destruct (resolvDN_exactly_one svc_sid corp_conn corp_base []
    {| ans_response := [referral; svc_entry]; ans_entries := [];
       ans_result := success |}) as (_ & _ & H).
  - reflexivity.
  - reflexivity.
  - reflexivity.
  - destruct H as (e & He & ->); [reflexivity|].
    injection He as <-. reflexivity.
Defined.

(** C4: [resolvDN] classifies the identity by the first test that holds,
    the case of letters being ignored. An identity in which "dc=" occurs is
    returned as it is, and nothing is sent to the directory. Otherwise one
    search is sent at the search base, and its filter is
    [(objectSid=identity)] when "s-1-" occurs in the identity, else
    [(objectGUID=identity)] when "{" occurs in it, else
    [(sAMAccountName=identity)]. *)
Theorem resolvDN_classification (identity : str) :
  (occurs_ignoring_case (lit "dc=") identity ->
   forall conn, resolvDN identity conn = (Return identity, conn)) /\
  (~ occurs_ignoring_case (lit "dc=") identity ->
   forall conn nc rest,
     server_info_other conn !! "defaultNamingContext" = Some (nc :: rest) ->
     exists flt,
       sent (resolvDN identity conn).2
       = sent conn ++ [SearchRequest nc flt None] /\
       (occurs_ignoring_case (lit "s-1-") identity ->
        flt = lit "(objectSid=" ++ identity ++ lit ")") /\
       (~ occurs_ignoring_case (lit "s-1-") identity ->
        occurs (lit "{") identity ->
        flt = lit "(objectGUID=" ++ identity ++ lit ")") /\
       (~ occurs_ignoring_case (lit "s-1-") identity ->
        ~ occurs (lit "{") identity ->
        flt = lit "(sAMAccountName=" ++ identity ++ lit ")")).
Proof.
  split.
  - intros H conn. apply resolvDN_dn.
    by apply (contains_ci (lit "dc=") _ eq_refl).
  - intros H conn nc rest Hnc.
    assert (Hdn : contains (lit "dc=") (lower identity) = false).
    { apply not_true_is_false. intros Hc. apply H.
      by apply (contains_ci (lit "dc=") _ eq_refl). }
    exists (ldap_filter identity).
    split; [by apply resolvDN_sent with rest|].
    unfold ldap_filter.
    destruct (contains (lit "s-1-") (lower identity)) eqn:Hsid.
    + apply (contains_ci (lit "s-1-") _ eq_refl) in Hsid. tauto.
    + assert (~ occurs_ignoring_case (lit "s-1-") identity).
      { intros Hc. apply (contains_ci (lit "s-1-") _ eq_refl) in Hc.
        congruence. }
      destruct (contains (lit "{") identity) eqn:Hguid.
      * apply contains_spec in Hguid. tauto.
      * assert (~ occurs (lit "{") identity).
        { intros Hc. apply contains_spec in Hc. congruence. }
        tauto.
Qed.

Lemma resolvDN_classification_witness :
  resolvDN (lit "CN=x,DC=y") corp_conn = (Return (lit "CN=x,DC=y"), corp_conn)
  /\ exists flt,
       sent (resolvDN (lit "jdoe") corp_conn).2
       = [SearchRequest corp_base flt None] /\
       flt = lit "(sAMAccountName=jdoe)".
Proof.
  split.
  - apply (proj1 (resolvDN_classification (lit "CN=x,DC=y"))).
    exists (lit "CN=x,"), (lit "DC="), (lit "y"). split; reflexivity.
  - assert (Hdn : ~ occurs_ignoring_case (lit "dc=") (lit "jdoe")).
    { intros Hc. apply (contains_ci (lit "dc=") _ eq_refl) in Hc.
      vm_compute in Hc. discriminate. }
    destruct (proj2 (resolvDN_classification (lit "jdoe")) Hdn
                corp_conn corp_base [] eq_refl)
      as (flt & Hsent & _ & _ & Hsam).
    exists flt. split; [exact Hsent|]. apply Hsam.
    + intros Hc. apply (contains_ci (lit "s-1-") _ eq_refl) in Hc.
      vm_compute in Hc. discriminate.
    + intros Hc. apply contains_spec in Hc. vm_compute in Hc. discriminate.
Defined.

(** ** userAccountControl *)

(** Bits: what [|] and [& ~] leave unchanged. *)
Lemma lor_already_set v f : Z.land v f = f -> Z.lor v f = v.
Proof.
  intros H. apply Z.bits_inj'. intros n Hn.
  rewrite Z.lor_spec.
  assert (Hb : Z.testbit (Z.land v f) n = Z.testbit f n) by by rewrite H.
  rewrite Z.land_spec in Hb.
  destruct (Z.testbit v n), (Z.testbit f n); simpl in *; congruence.
Qed.

Lemma land_lnot_already_clear v f : Z.land v f = 0 -> Z.land v (Z.lnot f) = v.
Proof.
  intros H. apply Z.bits_inj'. intros n Hn.
  rewrite Z.land_spec, Z.lnot_spec by done.
  assert (Hb : Z.testbit (Z.land v f) n = false) by (rewrite H; apply Z.bits_0).
  rewrite Z.land_spec in Hb.
  destruct (Z.testbit v n), (Z.testbit f n); simpl in *; congruence.
Qed.

Lemma modify_run conn dn changes r :
  on_modify (peer conn) (sent conn) dn changes = Return r ->
  modify dn changes conn = (Return (), modified conn (ModifyRequest dn changes) r).
Proof. intros H. unfold modify. by rewrite H. Qed.

Lemma lift_run {St A} (x : outcome A) (st : St) : lift x st = (x, st).
Proof. reflexivity. Qed.

Section toggle.

(** The identity resolves to [dn], leaving the connection as [conn1]; the
    read of the object is answered with a first entry whose
    [userAccountControl] has the values [values], which [int] reads as
    [v]. *)
Variables (identity enable : str) (flag : Z).
Variables (conn conn1 : Connection) (dn : str).
Variables (ans : search_answer) (e : gmap string (list py_value))
          (others : list (gmap string (list py_value)))
          (values : list py_value) (v : Z).

Hypothesis resolved : resolvDN identity conn = (Return dn, conn1).
Hypothesis read :
  on_search (peer conn1) (sent conn1) dn (lit "(objectClass=*)")
    (Some [lit "userAccountControl"]) = Return ans.
Hypothesis first_entry : ans_entries ans = e :: others.
Hypothesis attribute : e !! "userAccountControl" = Some values.
Hypothesis current : int_of_value values = Return v.

(** The run up to the modify: what is left is the modify of the new value
    and the test of its result, on the connection as the read left it. *)
Lemma userAccountControl_until_modify :
  userAccountControl identity enable flag conn =
  (modify dn
     {[ "userAccountControl" := (MODIFY_REPLACE, [toggled enable v flag]) ]};;
   conn ← get;
   if result (conn_result conn) =? 0 then mret ()
   else raise (ResultError (conn_result conn)))
    (searched conn1 (read_request dn) ans).
Proof using All.
  unfold userAccountControl.
  rewrite io_bind_run, resolved.
  rewrite io_bind_run, (search_run _ _ _ _ _ read).
  rewrite io_bind_run. cbn [get].
  rewrite io_bind_run, lift_run. cbn [entries searched].
  rewrite first_entry. cbn [item lookup list_lookup].
  rewrite io_bind_run, lift_run. unfold getitem. rewrite attribute.
  rewrite io_bind_run, lift_run, current.
  reflexivity.
Qed.

(** Whatever the directory answers to the modify, the requests sent are
    the read and the replace-modify of the new value. *)
Lemma userAccountControl_sent :
  sent (userAccountControl identity enable flag conn).2 =
  sent conn1 ++ [read_request dn; replace_request dn (toggled enable v flag)].
Proof using All.
  rewrite userAccountControl_until_modify, io_bind_run. unfold modify.
  fold (replace_request dn (toggled enable v flag)).
  destruct (on_modify _ _ _ _) as [r|err].
  - rewrite io_bind_run. cbn [get conn_result].
    destruct (result r =? 0); cbn [snd sent searched];
      by rewrite <- app_assoc.
  - cbn [snd sent searched]. by rewrite <- app_assoc.
Qed.

(** The outcome is decided by the answer to the modify that is sent. *)
Lemma userAccountControl_outcome :
  (userAccountControl identity enable flag conn).1 =
  match on_modify (peer conn1) (sent conn1 ++ [read_request dn]) dn
          {[ "userAccountControl"
             := (MODIFY_REPLACE, [toggled enable v flag]) ]} with
  | Return r => if result r =? 0 then Return () else Raise (ResultError r)
  | Raise err => Raise err
  end.
Proof using All.
  rewrite userAccountControl_until_modify, io_bind_run. unfold modify.
  cbn [peer sent searched].
  destruct (on_modify _ _ _ _) as [r|err]; [|reflexivity].
  rewrite io_bind_run. cbn [get conn_result].
  by destruct (result r =? 0).
Qed.

Lemma userAccountControl_run (r : ldap_result) :
  on_modify (peer conn1) (sent conn1 ++ [read_request dn]) dn
    {[ "userAccountControl" := (MODIFY_REPLACE, [toggled enable v flag]) ]}
  = Return r ->
  userAccountControl identity enable flag conn =
  (if result r =? 0 then Return () else Raise (ResultError r),
   modified (searched conn1 (read_request dn) ans)
     (replace_request dn (toggled enable v flag)) r).
Proof using All.
  intros written.
  rewrite userAccountControl_until_modify, io_bind_run.
  rewrite (modify_run (searched conn1 (read_request dn) ans) dn _ r written).
  rewrite io_bind_run. cbn [get conn_result modified].
  fold (replace_request dn (toggled enable v flag)).
  by destruct (result r =? 0).
Qed.

End toggle.

(** C6: once the identity is resolved to [dn] and the object is read with
    [userAccountControl] equal to [v], the request sent next is a
    replace-modify of [userAccountControl] at [dn] whose value is [v | flag]
    when [enable] holds (it is the string "True") and [v & ~flag]
    otherwise; the call returns when the result code of the modify is 0
    and raises [ResultError] with that result for any other code. *)
Theorem userAccountControl_replace_modify (identity enable : str) (flag : Z)
    (conn conn1 : Connection) (dn : str) (ans : search_answer)
    (e : gmap string (list py_value))
    (others : list (gmap string (list py_value)))
    (values : list py_value) (v : Z) (r : ldap_result) :
  resolvDN identity conn = (Return dn, conn1) ->
  on_search (peer conn1) (sent conn1) dn (lit "(objectClass=*)")
    (Some [lit "userAccountControl"]) = Return ans ->
  ans_entries ans = e :: others ->
  e !! "userAccountControl" = Some values ->
  int_of_value values = Return v ->
  let new := if bool_decide (enable = lit "True") then Z.lor v flag
             else Z.land v (Z.lnot flag) in
  on_modify (peer conn1) (sent conn1 ++ [read_request dn]) dn
    {[ "userAccountControl" := (MODIFY_REPLACE, [new]) ]} = Return r ->
  let run := userAccountControl identity enable flag conn in
  sent run.2 =
    sent conn1 ++
    [read_request dn;
     ModifyRequest dn {[ "userAccountControl" := (MODIFY_REPLACE, [new]) ]}]
  /\ (result r = 0 -> run.1 = Return ())
  /\ (result r <> 0 -> run.1 = Raise (ResultError r)).
Proof.
  intros Hres Hread Hfirst Hattr Hcur new Hmod run. unfold run.
  rewrite (userAccountControl_run _ _ _ _ _ _ _ _ _ _ _
             Hres Hread Hfirst Hattr Hcur r Hmod).
  cbn [fst snd sent modified searched]. repeat split.
  - by rewrite <- app_assoc.
  - intros ->. reflexivity.
  - intros Hne. apply Z.eqb_neq in Hne. by rewrite Hne.
Qed.

Lemma userAccountControl_replace_modify_witness :
  let run := userAccountControl svc_sid (lit "True") 0x0002 corp_conn in
  sent run.2 =
    sent corp_conn_resolved ++
    [read_request svc_dn;
     ModifyRequest svc_dn
       {[ "userAccountControl" := (MODIFY_REPLACE, [0x0202]) ]}]
  /\ run.1 = Return ().
Proof.
  destruct (userAccountControl_replace_modify svc_sid (lit "True") 0x0002
              corp_conn corp_conn_resolved svc_dn corp_read
              {[ "userAccountControl" := [py_int 0x0200] ]} []
              [py_int 0x0200] 0x0200 success)
    as (Hsent & Hok & _).
  - vm_compute. reflexivity.
  - reflexivity.
  - reflexivity.
  - reflexivity.
  - reflexivity.
  - reflexivity.
  - split; [exact Hsent | apply Hok; reflexivity].
Defined.

(** C8: the [enable] argument is compared with the string "True". When it
    is that string the value submitted is [v | flag]; for any other
    string, well formed or not, the value submitted is [v & ~flag], and the
    string itself never makes the call raise: the outcome is the one that
    the answer of the directory to that modify decides, success on result
    code 0, [ResultError] on another code, or the exception that the
    modify raised. *)
Theorem userAccountControl_enable_string (identity enable : str) (flag : Z)
    (conn conn1 : Connection) (dn : str) (ans : search_answer)
    (e : gmap string (list py_value))
    (others : list (gmap string (list py_value)))
    (values : list py_value) (v : Z) :
  resolvDN identity conn = (Return dn, conn1) ->
  on_search (peer conn1) (sent conn1) dn (lit "(objectClass=*)")
    (Some [lit "userAccountControl"]) = Return ans ->
  ans_entries ans = e :: others ->
  e !! "userAccountControl" = Some values ->
  int_of_value values = Return v ->
  let run := userAccountControl identity enable flag conn in
  let new := if bool_decide (enable = lit "True") then Z.lor v flag
             else Z.land v (Z.lnot flag) in
  (enable = lit "True" ->
   sent run.2 =
   sent conn1 ++ [read_request dn; replace_request dn (Z.lor v flag)]) /\
  (enable <> lit "True" ->
   sent run.2 =
   sent conn1 ++
   [read_request dn; replace_request dn (Z.land v (Z.lnot flag))]) /\
  run.1 =
  match on_modify (peer conn1) (sent conn1 ++ [read_request dn]) dn
          {[ "userAccountControl" := (MODIFY_REPLACE, [new]) ]} with
  | Return r => if result r =? 0 then Return () else Raise (ResultError r)
  | Raise err => Raise err
  end.
Proof.
  intros Hres Hread Hfirst Hattr Hcur run new. unfold run.
  rewrite (userAccountControl_sent _ _ _ _ _ _ _ _ _ _ _
             Hres Hread Hfirst Hattr Hcur).
  rewrite (userAccountControl_outcome _ _ _ _ _ _ _ _ _ _ _
             Hres Hread Hfirst Hattr Hcur).
  unfold toggled. fold new. repeat split.
  - intros H. unfold new. by rewrite bool_decide_eq_true_2.
  - intros H. unfold new. by rewrite bool_decide_eq_false_2.
Qed.

Lemma userAccountControl_enable_string_witness :
  let run := userAccountControl svc_sid (lit "true") 0x0200 corp_conn in
  sent run.2 =
    sent corp_conn_resolved ++ [read_request svc_dn; replace_request svc_dn 0]
  /\ run.1 = Return ().
Proof.
  destruct (userAccountControl_enable_string svc_sid (lit "true") 0x0200
              corp_conn corp_conn_resolved svc_dn corp_read
              {[ "userAccountControl" := [py_int 0x0200] ]} []
              [py_int 0x0200] 0x0200)
    as (_ & Hfalse & Hout).
  - vm_compute. reflexivity.
  - reflexivity.
  - reflexivity.
  - reflexivity.
  - reflexivity.
  - split; [apply Hfalse; discriminate | exact Hout].
Defined.

(** C9: the new value equals the value read, [v], when [enable] holds and
    every bit of [flag] is already set in [v], and when [enable] does not
    hold and no bit of [flag] is set in [v]: the value submitted by the
    replace-modify is then [v] itself, whatever the directory answers. *)
Theorem userAccountControl_idempotent (identity enable : str) (flag : Z)
    (conn conn1 : Connection) (dn : str) (ans : search_answer)
    (e : gmap string (list py_value))
    (others : list (gmap string (list py_value)))
    (values : list py_value) (v : Z) :
  resolvDN identity conn = (Return dn, conn1) ->
  on_search (peer conn1) (sent conn1) dn (lit "(objectClass=*)")
    (Some [lit "userAccountControl"]) = Return ans ->
  ans_entries ans = e :: others ->
  e !! "userAccountControl" = Some values ->
  int_of_value values = Return v ->
  let run := userAccountControl identity enable flag conn in
  (enable = lit "True" -> Z.land v flag = flag ->
   Z.lor v flag = v /\
   sent run.2 = sent conn1 ++ [read_request dn; replace_request dn v]) /\
  (enable <> lit "True" -> Z.land v flag = 0 ->
   Z.land v (Z.lnot flag) = v /\
   sent run.2 = sent conn1 ++ [read_request dn; replace_request dn v]).
Proof.
  intros Hres Hread Hfirst Hattr Hcur run. unfold run.
  rewrite (userAccountControl_sent _ _ _ _ _ _ _ _ _ _ _
             Hres Hread Hfirst Hattr Hcur).
  unfold toggled. split.
  - intros H Hset. rewrite bool_decide_eq_true_2 by done.
    by rewrite (lor_already_set _ _ Hset).
  - intros H Hclear. rewrite bool_decide_eq_false_2 by done.
    by rewrite (land_lnot_already_clear _ _ Hclear).
Qed.

Lemma userAccountControl_idempotent_witness :
  let run := userAccountControl svc_sid (lit "True") 0x0200 corp_conn in
  Z.lor 0x0200 0x0200 = 0x0200 /\
  sent run.2 =
    sent corp_conn_resolved ++
    [read_request svc_dn; replace_request svc_dn 0x0200].
Proof.
  destruct (userAccountControl_idempotent svc_sid (lit "True") 0x0200
              corp_conn corp_conn_resolved svc_dn corp_read
              {[ "userAccountControl" := [py_int 0x0200] ]} []
              [py_int 0x0200] 0x0200)
    as (Hset & _).
  - vm_compute. reflexivity.
  - reflexivity.
  - reflexivity.
  - reflexivity.
  - reflexivity.
  - apply Hset; reflexivity.
Defined.

(** ** rpcChangePassword *)

Lemma remote_run {A} c (answer : list samr_call -> outcome A) conn :
  remote c answer conn =
  (answer (calls conn),
   {| conf_host := conf_host conn; conf_domain := conf_domain conn;
      samr_connection := samr_connection conn;
      calls := calls conn ++ [c] |}).
Proof. reflexivity. Qed.

Lemma cryptPassword_protocol_key password encoded :
  encode_utf_16le password = Return encoded ->
  exists enc, cryptPassword SystemLibraryDTC password = Return enc.
Proof.
  intros He. eexists.
  apply cryptPassword_unfold with (encoded := encoded); [reflexivity | exact He].
Qed.

(** C7: when the transport is available, the five preparatory calls are
    answered, the password can be encoded and the server answers the
    request that results, [rpcChangePassword] makes exactly six remote
    calls, in this order: connect to the server named by the host, look up
    the SID of the domain, open the domain, look up the relative
    identifier of the target, open the user, and submit the
    [SamrSetInformationUser2] request on the user handle. The request
    carries the encrypted password buffer: the RC4 encryption, under the
    fixed key "SystemLibraryDTC" of 16 octets, of the serialised clear-text
    structure (the padded password followed by its length), 516 octets in
    all; its password-expired flag is 0. The answer to the request is
    returned as it is. *)
Theorem rpcChangePassword_sequence (target new_pass : str)
    (conn : RpcConnection) (dce : samr_server)
    (server_handle domainSID domain_handle opened_user : bytes)
    (userRID : Z) (other_rids : list Z) (encoded : bytes)
    (resp : SamrSetInformationUser2Response) :
  let c1 := hSamrConnect (conf_host conn ++ [0]) in
  let c2 := hSamrLookupDomainInSamServer server_handle (conf_domain conn) in
  let c3 := hSamrOpenDomain server_handle domainSID in
  let c4 := hSamrLookupNamesInDomain domain_handle [target] in
  let c5 := hSamrOpenUser domain_handle userRID in
  let clear :=
    {| Buffer := bytes_mul 0x41 (512 - len encoded) ++ encoded;
       Length := len encoded |} in
  let user_password :=
    {| enc_Buffer :=
         rc4 SystemLibraryDTC (SAMPR_USER_PASSWORD_getData clear) |} in
  let req := {| UserHandle := opened_user;
                UserInformationClass := UserInternal5Information;
                Buffer_tag := UserInternal5Information;
                Internal5_UserPassword := user_password;
                Internal5_PasswordExpired := 0 |} in
  samr_connection conn = Return dce ->
  on_connect dce (calls conn) (conf_host conn ++ [0]) = Return server_handle ->
  on_lookup_domain dce (calls conn ++ [c1]) server_handle (conf_domain conn)
    = Return domainSID ->
  on_open_domain dce (calls conn ++ [c1; c2]) server_handle domainSID
    = Return domain_handle ->
  on_lookup_names dce (calls conn ++ [c1; c2; c3]) domain_handle [target]
    = Return (userRID :: other_rids) ->
  on_open_user dce (calls conn ++ [c1; c2; c3; c4]) domain_handle userRID
    = Return opened_user ->
  encode_utf_16le new_pass = Return encoded ->
  on_request dce (calls conn ++ [c1; c2; c3; c4; c5]) req = Return resp ->
  length SystemLibraryDTC = 16%nat /\
  length (enc_Buffer user_password) = 516%nat /\
  (len encoded <= 512 ->
   SAMPR_USER_PASSWORD_getData clear
   = repeat 0x41 (512 - length encoded)%nat ++ encoded
     ++ le_octets 4 (len encoded)) /\
  (rpcChangePassword target new_pass conn).1 = Return resp /\
  calls (rpcChangePassword target new_pass conn).2
  = calls conn ++ [c1; c2; c3; c4; c5; request req].
Proof.
  intros c1 c2 c3 c4 c5 clear user_password req
    Hdce H1 H2 H3 H4 H5 Henc H6.
  split; [reflexivity|].
  split.
  { unfold user_password, rc4. cbn [enc_Buffer].
    unfold SAMPR_USER_PASSWORD_getData.
    by rewrite length_prga, length_app, length_pack_s, length_pack_ULONG. }
  split.
  { intros Hlen. unfold SAMPR_USER_PASSWORD_getData, clear.
    cbn [Buffer Length]. rewrite bytes_mul_short by exact Hlen.
    rewrite pack_s_exact
      by (rewrite length_app, repeat_length; unfold len in Hlen; lia).
    unfold pack_ULONG. rewrite pack_le_fits.
    - by rewrite <- app_assoc.
    - change (256 ^ Z.of_nat 4) with 4294967296. unfold len in *. lia. }
  assert (Hcrypt : cryptPassword SystemLibraryDTC new_pass
                   = Return user_password).
  { apply cryptPassword_unfold; [reflexivity | exact Henc]. }
  assert (Hrun : rpcChangePassword target new_pass conn =
                 (Return resp,
                  {| conf_host := conf_host conn;
                     conf_domain := conf_domain conn;
                     samr_connection := samr_connection conn;
                     calls := calls conn ++ [c1; c2; c3; c4; c5; request req]
                  |})).
  { unfold rpcChangePassword, getSamrConnection.
    rewrite !io_bind_run. cbn [get]. rewrite lift_run, Hdce.
    rewrite io_bind_run. cbn [get].
    rewrite io_bind_run, remote_run, H1.
    rewrite io_bind_run, remote_run. cbn [calls]. fold c1. rewrite H2.
    rewrite io_bind_run, remote_run. cbn [calls]. fold c2.
    rewrite <- (app_assoc (calls conn) [c1] [c2]). simpl app. rewrite H3.
    rewrite io_bind_run, remote_run. cbn [calls]. fold c3.
    rewrite <- (app_assoc (calls conn) [c1; c2] [c3]). simpl app. rewrite H4.
    rewrite io_bind_run, lift_run. cbn [item lookup list_lookup].
    rewrite io_bind_run, remote_run. cbn [calls]. fold c4 c5.
    rewrite <- (app_assoc (calls conn) [c1; c2; c3] [c4]). simpl app.
    rewrite H5.
    rewrite io_bind_run, lift_run, Hcrypt.
    rewrite io_bind_run, remote_run. cbn [calls]. fold req.
    rewrite <- (app_assoc (calls conn) [c1; c2; c3; c4] [c5]). simpl app.
    rewrite H6.
    rewrite <- (app_assoc (calls conn) [c1; c2; c3; c4; c5] [request req]).
    cbn [conf_host conf_domain samr_connection]. rewrite Hdce.
    reflexivity. }
  rewrite Hrun. split; reflexivity.
Qed.

Lemma rpcChangePassword_sequence_witness :
  let user_password :=
    {| enc_Buffer :=
         rc4 SystemLibraryDTC
           (SAMPR_USER_PASSWORD_getData
              {| Buffer := bytes_mul 0x41 (512 - len passw0rd_encoded)
                           ++ passw0rd_encoded;
                 Length := len passw0rd_encoded |}) |} in
  (rpcChangePassword (lit "svc") (lit "Passw0rd!") corp_rpc).1
  = Return {| ErrorCode := 0 |} /\
  calls (rpcChangePassword (lit "svc") (lit "Passw0rd!") corp_rpc).2
  = [hSamrConnect (lit "dc01.corp.test" ++ [0]);
     hSamrLookupDomainInSamServer [1] (lit "corp.test");
     hSamrOpenDomain [1] [1; 4; 0; 0; 0; 0; 0; 5];
     hSamrLookupNamesInDomain [2] [lit "svc"];
     hSamrOpenUser [2] 1104;
     request {| UserHandle := [3];
                UserInformationClass := 24;
                Buffer_tag := 24;
                Internal5_UserPassword := user_password;
                Internal5_PasswordExpired := 0 |}].
Proof.
  destruct (rpcChangePassword_sequence (lit "svc") (lit "Passw0rd!") corp_rpc
              corp_samr [1] [1; 4; 0; 0; 0; 0; 0; 5] [2] [3] 1104 []
              passw0rd_encoded {| ErrorCode := 0 |})
    as (_ & _ & _ & Hret & Hcalls);
    try reflexivity.
  split; [exact Hret | exact Hcalls].
Defined.

(** * Further properties *)

(** ** resolvDN and getDefaultNamingContext *)

Lemma getDefaultNamingContext_state conn :
  (getDefaultNamingContext conn).2 = conn.
Proof.
  unfold getDefaultNamingContext. rewrite io_bind_run. cbn [get].
  rewrite io_bind_run. unfold lift.
  destruct (getitem _ _) as [values|e]; [|reflexivity]. reflexivity.
Qed.

(** X1: when the server announced no default naming context, or an empty
    list of them, [resolvDN] on an identity that is not a DN raises
    [KeyError], respectively [IndexError], and leaves the connection as it
    was: no search is sent. *)
Theorem resolvDN_without_naming_context (identity : str) (conn : Connection) :
  contains (lit "dc=") (lower identity) = false ->
  (server_info_other conn !! "defaultNamingContext" = None ->
   resolvDN identity conn = (Raise (KeyError "defaultNamingContext"), conn))
  /\
  (server_info_other conn !! "defaultNamingContext" = Some [] ->
   resolvDN identity conn = (Raise IndexError, conn)).
Proof.
  intros Hdn. unfold resolvDN. rewrite Hdn, io_bind_run.
  unfold getDefaultNamingContext, getitem.
  rewrite io_bind_run. cbn [get]. rewrite io_bind_run. unfold lift.
  split; intros ->; reflexivity.
Qed.

Lemma resolvDN_without_naming_context_witness :
  resolvDN (lit "jdoe") bare_conn
  = (Raise (KeyError "defaultNamingContext"), bare_conn).
Proof.
  apply (proj1 (resolvDN_without_naming_context (lit "jdoe") bare_conn
                  eq_refl)).
  reflexivity.
Defined.

Lemma resolvDN_state identity conn :
  let conn' := (resolvDN identity conn).2 in
  server_info_other conn' = server_info_other conn /\
  peer conn' = peer conn /\
  (sent conn' = sent conn \/
   exists nc, sent conn' = sent conn ++ [SearchRequest nc (ldap_filter identity) None]).
Proof.
  unfold resolvDN.
  destruct (contains (lit "dc=") (lower identity)); [by auto|].
  rewrite io_bind_run.
  pose proof (getDefaultNamingContext_state conn) as Hst.
  destruct (getDefaultNamingContext conn) as [[nc|e] c0]; simpl in Hst;
    subst c0; [|by auto].
  rewrite io_bind_run. unfold search.
  destruct (on_search _ _ _ _ _) as [ans|e]; [|by cbn; eauto].
  rewrite io_bind_run. cbn [get response].
  destruct (len _ <? 1); [by cbn; eauto|].
  destruct (1 <? len _); [by cbn; eauto|].
  rewrite io_bind_run. unfold lift.
  destruct (item _ 0) as [e0|e0]; by cbn; eauto.
Qed.

(** X2: whatever the identity and the directory, [resolvDN] sends nothing
    or exactly one search, without an attribute list and with the filter of
    the identity; it never sends a modify and never changes what the
    connection knows of the server. *)
Theorem resolvDN_at_most_one_search (identity : str) (conn : Connection) :
  let conn' := (resolvDN identity conn).2 in
  (sent conn' = sent conn \/
   exists nc,
     sent conn' = sent conn ++ [SearchRequest nc (ldap_filter identity) None])
  /\ server_info_other conn' = server_info_other conn
  /\ peer conn' = peer conn.
Proof. destruct (resolvDN_state identity conn) as (H1 & H2 & H3). auto. Qed.

(** X3: when ldap3 raises during the search, [resolvDN] lets the exception
    through as it is: it is not turned into [NoResultError], and the search
    is the only request sent. *)
Theorem resolvDN_search_raises (identity : str) (conn : Connection)
    (nc : str) (rest : list str) (e : exn) :
  contains (lit "dc=") (lower identity) = false ->
  server_info_other conn !! "defaultNamingContext" = Some (nc :: rest) ->
  on_search (peer conn) (sent conn) nc (ldap_filter identity) None = Raise e ->
  (resolvDN identity conn).1 = Raise e /\
  sent (resolvDN identity conn).2
  = sent conn ++ [SearchRequest nc (ldap_filter identity) None].
Proof.
  intros Hdn Hnc Hs. unfold resolvDN. rewrite Hdn.
  rewrite io_bind_run, (getDefaultNamingContext_run _ _ _ Hnc).
  rewrite io_bind_run. unfold search. rewrite Hs. by cbn.
Qed.

Lemma resolvDN_search_raises_witness :
  (resolvDN (lit "jdoe") unreachable_conn).1 = Raise (PeerError (lit "socket")).
Proof.
  apply (resolvDN_search_raises (lit "jdoe") unreachable_conn corp_base []
           (PeerError (lit "socket"))); reflexivity.
Defined.

Lemma filter_lone_entry (pre post : list (gmap string str)) e :
  Forall (fun x => ~ is_searchResEntry x) pre ->
  Forall (fun x => ~ is_searchResEntry x) post ->
  is_searchResEntry e ->
  filter is_searchResEntry (pre ++ e :: post) = [e].
Proof.
  intros Hpre Hpost He.
  rewrite filter_app, filter_cons_True by done.
  assert (Hnil : forall l, Forall (fun x => ~ is_searchResEntry x) l ->
                           filter is_searchResEntry l = []).
  { intros l Hl. induction Hl as [|x l Hx Hl IH]; [done|].
    by rewrite filter_cons_False. }
  by rewrite (Hnil _ Hpre), (Hnil _ Hpost).
Qed.

(** X4: the entries of the response that are not of type [searchResEntry],
    such as referrals or dictionaries without a [type] key, do not count.
    A response made of such entries only gives [NoResultError], however
    many they are; a response with one [searchResEntry] among them, at any
    position, gives the [dn] of that entry. *)
Theorem resolvDN_skips_other_entries (identity : str) (conn : Connection)
    (nc : str) (rest : list str) (ans : search_answer) :
  contains (lit "dc=") (lower identity) = false ->
  server_info_other conn !! "defaultNamingContext" = Some (nc :: rest) ->
  on_search (peer conn) (sent conn) nc (ldap_filter identity) None
    = Return ans ->
  (Forall (fun x => ~ is_searchResEntry x) (ans_response ans) ->
   (resolvDN identity conn).1
   = Raise (NoResultError nc (ldap_filter identity))) /\
  (forall pre e post dn,
     ans_response ans = pre ++ e :: post ->
     Forall (fun x => ~ is_searchResEntry x) pre ->
     Forall (fun x => ~ is_searchResEntry x) post ->
     e !! "type" = Some (lit "searchResEntry") ->
     e !! "dn" = Some dn ->
     (resolvDN identity conn).1 = Return dn).
Proof.
  intros Hdn Hnc Hs.
  rewrite (resolvDN_lookup _ _ _ _ _ Hdn Hnc Hs). cbn [fst]. split.
  - intros Hall.
    replace (filter is_searchResEntry (ans_response ans)) with
      (@nil (gmap string str)); [reflexivity|].
    symmetry. induction Hall as [|x l Hx Hl IH]; [done|].
    by rewrite filter_cons_False.
  - intros pre e post dn -> Hpre Hpost Hty Hdnk.
    rewrite filter_lone_entry; [|done|done|].
    + unfold pick_entry. cbn. unfold getitem. by rewrite Hdnk.
    + unfold is_searchResEntry. by rewrite Hty.
Qed.

Lemma resolvDN_skips_other_entries_witness :
  (resolvDN (lit "jdoe") corp_conn).1
  = Raise (NoResultError corp_base (lit "(sAMAccountName=jdoe)")).
Proof.
  apply (proj1 (resolvDN_skips_other_entries (lit "jdoe") corp_conn corp_base
    [] {| ans_response := [referral]; ans_entries := [];
          ans_result := success |} eq_refl eq_refl eq_refl)).
  repeat constructor. vm_compute. discriminate.
Defined.

(** ** userAccountControl *)

(** X5: with an identity that is a DN, [userAccountControl] looks nothing
    up: whatever the directory answers to the modify, the requests it
    sends are the read of [userAccountControl] at the identity itself and
    the replace-modify at that same identity. *)
Theorem userAccountControl_on_dn (identity enable : str) (flag : Z)
    (conn : Connection) (ans : search_answer)
    (e : gmap string (list py_value))
    (others : list (gmap string (list py_value)))
    (values : list py_value) (v : Z) :
  contains (lit "dc=") (lower identity) = true ->
  on_search (peer conn) (sent conn) identity (lit "(objectClass=*)")
    (Some [lit "userAccountControl"]) = Return ans ->
  ans_entries ans = e :: others ->
  e !! "userAccountControl" = Some values ->
  int_of_value values = Return v ->
  sent (userAccountControl identity enable flag conn).2 =
  sent conn ++
  [read_request identity;
   replace_request identity
     (if bool_decide (enable = lit "True") then Z.lor v flag
      else Z.land v (Z.lnot flag))].
Proof.
  intros Hdn Hread Hfirst Hattr Hcur.
  exact (userAccountControl_sent identity enable flag conn conn identity
           ans e others values v (resolvDN_dn _ _ Hdn) Hread Hfirst Hattr
           Hcur).
Qed.

Lemma userAccountControl_on_dn_witness :
  sent (userAccountControl svc_dn (lit "True") 0x0002 corp_conn).2 =
  [read_request svc_dn; replace_request svc_dn 0x0202].
Proof.
  apply (userAccountControl_on_dn svc_dn (lit "True") 0x0002 corp_conn
           corp_read {[ "userAccountControl" := [py_int 0x0200] ]} []
           [py_int 0x0200] 0x0200);
    reflexivity.
Defined.

(** X6: the read of the resolved object can leave nothing to toggle. With
    no entry, [userAccountControl] raises [IndexError]. With a first entry
    that has no [userAccountControl] key it raises [KeyError]. With the
    attribute there but without a value, as ldap3 fills in an attribute
    that the server did not return, or with several values, it raises the
    [TypeError] of [int]; with a text that is not a number, the
    [ValueError] of [int]. In every case the read is the last request
    sent: nothing is modified. *)
Theorem userAccountControl_nothing_to_read (identity enable : str) (flag : Z)
    (conn conn1 : Connection) (dn : str) (ans : search_answer) :
  resolvDN identity conn = (Return dn, conn1) ->
  on_search (peer conn1) (sent conn1) dn (lit "(objectClass=*)")
    (Some [lit "userAccountControl"]) = Return ans ->
  let run := userAccountControl identity enable flag conn in
  (ans_entries ans = [] ->
   run.1 = Raise IndexError /\
   sent run.2 = sent conn1 ++ [read_request dn]) /\
  (forall e others,
     ans_entries ans = e :: others ->
     (e !! "userAccountControl" = None ->
      run.1 = Raise (KeyError "userAccountControl") /\
      sent run.2 = sent conn1 ++ [read_request dn]) /\
     (forall values,
        e !! "userAccountControl" = Some values ->
        (length values <> 1%nat ->
         run.1 = Raise TypeError /\
         sent run.2 = sent conn1 ++ [read_request dn]) /\
        (forall err,
           int_of_value values = Raise err ->
           run.1 = Raise err /\
           sent run.2 = sent conn1 ++ [read_request dn]))).
Proof.
  intros Hres Hread run. unfold run, userAccountControl.
  rewrite io_bind_run, Hres.
  rewrite io_bind_run, (search_run _ _ _ _ _ Hread).
  rewrite io_bind_run. cbn [get].
  rewrite io_bind_run, lift_run. cbn [entries searched].
  split.
  - intros ->. by cbn.
  - intros e others ->. cbn [item lookup list_lookup].
    rewrite io_bind_run, lift_run. unfold getitem. split.
    + intros ->. by cbn.
    + intros values ->. rewrite io_bind_run, lift_run. split.
      * intros Hlen.
        assert (int_of_value values = Raise TypeError) as ->; [|by cbn].
        destruct values as [|[z|t] [|y values]]; try done; by destruct Hlen.
      * intros err ->. by cbn.
Qed.

Lemma userAccountControl_nothing_to_read_witness :
  (userAccountControl (lit "jdoe") (lit "True") 0x0002 hollow_conn).1
  = Raise IndexError /\
  sent (userAccountControl (lit "jdoe") (lit "True") 0x0002 hollow_conn).2
  = [SearchRequest corp_base (lit "(sAMAccountName=jdoe)") None;
     read_request svc_dn].
Proof.
  apply (proj1 (userAccountControl_nothing_to_read (lit "jdoe") (lit "True")
    0x0002 hollow_conn
    (searched hollow_conn
       (SearchRequest corp_base (lit "(sAMAccountName=jdoe)") None)
       hollow_answer)
    svc_dn hollow_answer eq_refl eq_refl)).
  reflexivity.
Defined.

Lemma userAccountControl_sent_shape identity enable flag conn :
  let conn1 := (resolvDN identity conn).2 in
  let conn' := (userAccountControl identity enable flag conn).2 in
  sent conn' = sent conn1 \/
  (exists dn, sent conn' = sent conn1 ++ [read_request dn]) \/
  (exists dn w, sent conn' = sent conn1 ++ [read_request dn; replace_request dn w]).
Proof.
  unfold userAccountControl. rewrite io_bind_run.
  destruct (resolvDN identity conn) as [[dn|e] conn1]; cbn [snd]; [|by left].
  rewrite io_bind_run.
  pose proof (search_sent conn1 dn (lit "(objectClass=*)")
                (Some [lit "userAccountControl"])) as Hsent.
  fold (read_request dn) in Hsent.
  destruct (search dn _ _ conn1) as [[[]|e] conn2]; cbn [snd] in Hsent;
    [|right; left; eauto].
  rewrite io_bind_run. cbn [get]. rewrite io_bind_run, lift_run.
  destruct (item (entries conn2) 0) as [entry|e]; [|right; left; eauto].
  rewrite io_bind_run, lift_run.
  destruct (getitem entry "userAccountControl") as [values|e];
    [|right; left; eauto].
  rewrite io_bind_run, lift_run.
  destruct (int_of_value values) as [v|e]; [|right; left; eauto].
  set (w := if bool_decide (enable = lit "True") then Z.lor v flag
            else Z.land v (Z.lnot flag)).
  rewrite io_bind_run. unfold modify. fold (replace_request dn w).
  right; right. exists dn, w.
  destruct (on_modify (peer conn2) (sent conn2) dn _) as [r|e].
  - rewrite io_bind_run. cbn [get conn_result].
    destruct (result r =? 0); cbn [snd sent]; rewrite Hsent;
      by rewrite <- app_assoc.
  - cbn [snd sent]. rewrite Hsent. by rewrite <- app_assoc.
Qed.

(** X7: whatever the arguments, the connection and the directory,
    [userAccountControl] sends at most two searches, then at most one
    modify; that modify replaces [userAccountControl], and nothing else,
    by a single value. It never adds or deletes a value and never writes
    before it has read. *)
Theorem userAccountControl_requests (identity enable : str) (flag : Z)
    (conn : Connection) :
  exists searches,
    Forall is_search searches /\ (length searches <= 2)%nat /\
    (sent (userAccountControl identity enable flag conn).2
     = sent conn ++ searches \/
     exists dn w,
       length searches <> 0%nat /\
       sent (userAccountControl identity enable flag conn).2
       = sent conn ++ searches ++ [replace_request dn w]).
Proof.
  destruct (resolvDN_state identity conn) as (_ & _ & H1).
  destruct (userAccountControl_sent_shape identity enable flag conn)
    as [H2 | [(dn & H2) | (dn & w & H2)]];
    destruct H1 as [H1 | (nc & H1)]; rewrite H2, H1.
  - exists []. split; [constructor|]. split; [simpl; lia|].
    left. by rewrite app_nil_r.
  - eexists [_]. split; [repeat constructor; by eexists _, _, _|].
    split; [simpl; lia|]. by left.
  - exists [read_request dn].
    split; [repeat constructor; by eexists _, _, _|].
    split; [simpl; lia|]. by left.
  - eexists [_; read_request dn].
    split; [repeat constructor; by eexists _, _, _|].
    split; [simpl; lia|]. left. by rewrite <- app_assoc.
  - exists [read_request dn].
    split; [repeat constructor; by eexists _, _, _|].
    split; [simpl; lia|]. right. exists dn, w. by split.
  - eexists [_; read_request dn].
    split; [repeat constructor; by eexists _, _, _|].
    split; [simpl; lia|]. right. exists dn, w.
    split; [done|]. by rewrite <- app_assoc.
Qed.

(** X8: the value submitted differs from the value read on the bits of
    [flag] only: every bit of [flag] is set when [enable] is "True" and
    cleared otherwise, and every other bit is the bit of the value read.
    This holds whatever the directory answers to the modify. *)
Theorem userAccountControl_touches_flag_bits_only (identity enable : str)
    (flag : Z) (conn conn1 : Connection) (dn : str) (ans : search_answer)
    (e : gmap string (list py_value))
    (others : list (gmap string (list py_value)))
    (values : list py_value) (v : Z) :
  resolvDN identity conn = (Return dn, conn1) ->
  on_search (peer conn1) (sent conn1) dn (lit "(objectClass=*)")
    (Some [lit "userAccountControl"]) = Return ans ->
  ans_entries ans = e :: others ->
  e !! "userAccountControl" = Some values ->
  int_of_value values = Return v ->
  exists w,
    sent (userAccountControl identity enable flag conn).2
    = sent conn1 ++ [read_request dn; replace_request dn w] /\
    forall n, 0 <= n ->
      Z.testbit w n = if Z.testbit flag n
                      then bool_decide (enable = lit "True")
                      else Z.testbit v n.
Proof.
  intros Hres Hread Hfirst Hattr Hcur.
  exists (toggled enable v flag).
  split; [exact (userAccountControl_sent _ _ _ _ _ _ _ _ _ _ _
                   Hres Hread Hfirst Hattr Hcur)|].
  intros n Hn. unfold toggled.
  destruct (bool_decide (enable = lit "True")).
  - rewrite Z.lor_spec. by destruct (Z.testbit v n), (Z.testbit flag n).
  - rewrite Z.land_spec, Z.lnot_spec by done.
    by destruct (Z.testbit v n), (Z.testbit flag n).
Qed.

Lemma userAccountControl_touches_flag_bits_only_witness :
  exists w,
    sent (userAccountControl svc_sid (lit "True") 0x0002 corp_conn).2
    = sent corp_conn_resolved ++
      [read_request svc_dn; replace_request svc_dn w] /\
    forall n, 0 <= n ->
      Z.testbit w n = if Z.testbit 0x0002 n then true else Z.testbit 0x0200 n.
Proof.
  apply (userAccountControl_touches_flag_bits_only svc_sid (lit "True") 0x0002
           corp_conn corp_conn_resolved svc_dn corp_read
           {[ "userAccountControl" := [py_int 0x0200] ]} []
           [py_int 0x0200] 0x0200);
    reflexivity.
Defined.

(** X9: disabling a flag on a value that came from enabling it on [v0]
    submits [v0] again when no bit of the flag was set in [v0]; enabling a
    flag on a value that came from disabling it submits [v0] again when
    every bit of the flag was set in [v0]. This holds whatever the
    directory answers to the modify. *)
Theorem userAccountControl_undoes_itself (identity enable : str) (flag : Z)
    (conn conn1 : Connection) (dn : str) (ans : search_answer)
    (e : gmap string (list py_value))
    (others : list (gmap string (list py_value)))
    (values : list py_value) (v v0 : Z) :
  resolvDN identity conn = (Return dn, conn1) ->
  on_search (peer conn1) (sent conn1) dn (lit "(objectClass=*)")
    (Some [lit "userAccountControl"]) = Return ans ->
  ans_entries ans = e :: others ->
  e !! "userAccountControl" = Some values ->
  int_of_value values = Return v ->
  let run := userAccountControl identity enable flag conn in
  (enable <> lit "True" -> v = Z.lor v0 flag -> Z.land v0 flag = 0 ->
   sent run.2 = sent conn1 ++ [read_request dn; replace_request dn v0]) /\
  (enable = lit "True" -> v = Z.land v0 (Z.lnot flag) ->
   Z.land v0 flag = flag ->
   sent run.2 = sent conn1 ++ [read_request dn; replace_request dn v0]).
Proof.
  intros Hres Hread Hfirst Hattr Hcur run. unfold run.
  rewrite (userAccountControl_sent _ _ _ _ _ _ _ _ _ _ _
             Hres Hread Hfirst Hattr Hcur).
  unfold toggled. split.
  - intros Hen -> Hclear. rewrite bool_decide_eq_false_2 by done.
    enough (Z.land (Z.lor v0 flag) (Z.lnot flag) = v0) as -> by done.
    apply Z.bits_inj'. intros n Hn.
    assert (Hb : Z.testbit (Z.land v0 flag) n = false)
      by (rewrite Hclear; apply Z.bits_0).
    rewrite Z.land_spec in Hb.
    rewrite Z.land_spec, Z.lor_spec, Z.lnot_spec by done.
    destruct (Z.testbit v0 n), (Z.testbit flag n); simpl in *; congruence.
  - intros Hen -> Hset. rewrite bool_decide_eq_true_2 by done.
    enough (Z.lor (Z.land v0 (Z.lnot flag)) flag = v0) as -> by done.
    apply Z.bits_inj'. intros n Hn.
    assert (Hb : Z.testbit (Z.land v0 flag) n = Z.testbit flag n)
      by by rewrite Hset.
    rewrite Z.land_spec in Hb.
    rewrite Z.lor_spec, Z.land_spec, Z.lnot_spec by done.
    destruct (Z.testbit v0 n), (Z.testbit flag n); simpl in *; congruence.
Qed.

Lemma userAccountControl_undoes_itself_witness :
  sent (userAccountControl svc_sid (lit "False") 0x0200 corp_conn).2
  = sent corp_conn_resolved ++ [read_request svc_dn; replace_request svc_dn 0].
Proof.
  apply (proj1 (userAccountControl_undoes_itself svc_sid (lit "False") 0x0200
    corp_conn corp_conn_resolved svc_dn corp_read
    {[ "userAccountControl" := [py_int 0x0200] ]} [] [py_int 0x0200]
    0x0200 0
    ltac:(vm_compute; reflexivity) eq_refl eq_refl eq_refl eq_refl)).
  - discriminate.
  - reflexivity.
  - reflexivity.
Defined.

(** ** cryptPassword *)

Lemma prga_involutive data : forall box i j,
  ARC4.prga box i j (ARC4.prga box i j data) = data.
Proof.
  induction data as [|b rest IH]; intros box i j; [done|].
  cbn [ARC4.prga]. f_equal; [|apply IH].
  by rewrite Z.lxor_assoc, Z.lxor_nilpotent, Z.lxor_0_r.
Qed.

Lemma le_value_le_octets n : forall v,
  0 <= v < 256 ^ Z.of_nat n -> le_value (le_octets n v) = v.
Proof.
  induction n as [|n IH]; intros v Hv.
  - simpl in *. lia.
  - cbn [le_octets le_value]. rewrite IH.
    + pose proof (Z.div_mod v 256). lia.
    + rewrite Nat2Z.inj_succ, Z.pow_succ_r in Hv by lia.
      split; [apply Z.div_pos; lia|].
      apply Z.div_lt_upper_bound; lia.
Qed.

Lemma encode_code_point_spec c :
  (encodable c /\
   exists b, encode_code_point c = Return b /\
             (length b = 2%nat \/ length b = 4%nat) /\
             (c < 0x10000 -> length b = 2%nat)) \/
  (~ encodable c /\ encode_code_point c = Raise UnicodeEncodeError).
Proof.
  unfold encode_code_point, encodable.
  destruct ((0 <=? c) && (c <? 0xD800) || (0xE000 <=? c) && (c <? 0x10000))
    eqn:E1.
  - left. split; [lia|]. eexists. split; [reflexivity|]. by auto.
  - destruct ((0x10000 <=? c) && (c <? 0x110000)) eqn:E2.
    + left. split; [lia|]. eexists. split; [reflexivity|].
      split; [by right|]. lia.
    + right. split; [lia|reflexivity].
Qed.

Lemma encode_utf_16le_spec s :
  (Forall encodable s /\
   exists b, encode_utf_16le s = Return b /\
             (2 * length s <= length b <= 4 * length s)%nat /\
             (Forall (fun c => c < 0x10000) s ->
              length b = (2 * length s)%nat)) \/
  (Exists (fun c => ~ encodable c) s /\
   encode_utf_16le s = Raise UnicodeEncodeError).
Proof.
  induction s as [|c s IH].
  - left. split; [constructor|]. exists []. split; [done|]. simpl. by auto.
  - cbn [encode_utf_16le].
    destruct (encode_code_point_spec c)
      as [(Hc & b & -> & Hlen & Hbmp) | (Hc & ->)].
    + destruct IH as [(Hs & r & -> & Hr & Hrb) | (Hs & ->)].
      * left. split; [by constructor|]. exists (b ++ r).
        split; [done|]. rewrite length_app. simpl. split; [lia|].
        intros Hall. inversion Hall; subst. rewrite Hbmp, Hrb by done. lia.
      * right. split; [by apply Exists_cons_tl|done].
    + right. split; [by apply Exists_cons_hd|done].
Qed.

(** X10: what [cryptPassword] returns can be read back. Decrypting the
    buffer under the same key gives 516 octets whose last four are the
    length of the encoded password, least significant octet first, and
    whose first 512, once that many octets are kept from their right end,
    are the encoded password. *)
Theorem cryptPassword_round_trip (session_key : bytes) (password : str)
    (encoded : bytes) :
  ARC4.key_size_ok session_key = true ->
  encode_utf_16le password = Return encoded ->
  len encoded <= 512 ->
  exists enc rc4,
    cryptPassword session_key password = Return enc /\
    ARC4.new session_key = Return rc4 /\
    let clear := ARC4.encrypt rc4 (enc_Buffer enc) in
    length clear = 516%nat /\
    le_value (drop 512 clear) = len encoded /\
    drop (512 - length encoded) (take 512 clear) = encoded.
Proof.
  intros Hk He Hlen.
  set (padded := repeat 0x41 (512 - length encoded)%nat ++ encoded).
  assert (Hpad : length padded = 512%nat).
  { unfold padded. rewrite length_app, repeat_length. unfold len in Hlen. lia. }
  assert (Hfit : pack_le 4 (len encoded) = Return (le_octets 4 (len encoded))).
  { apply pack_le_fits. change (256 ^ Z.of_nat 4) with 4294967296.
    unfold len in *. lia. }
  eexists. eexists. split; [exact (cryptPassword_unfold _ _ _ Hk He)|].
  split; [exact (new_accepts _ Hk)|].
  unfold ARC4.encrypt. cbn [ARC4.S_box ARC4.idx_i ARC4.idx_j enc_Buffer].
  rewrite prga_involutive.
  rewrite bytes_mul_short by exact Hlen. fold padded.
  rewrite pack_s_exact by exact Hpad.
  unfold pack_ULONG. rewrite Hfit.
  split; [rewrite length_app, length_le_octets; lia|]. split.
  - rewrite drop_app_length' by (symmetry; exact Hpad).
    apply le_value_le_octets. change (256 ^ Z.of_nat 4) with 4294967296.
    unfold len in *. lia.
  - rewrite take_app_length' by (symmetry; exact Hpad). unfold padded.
    rewrite drop_app_length'; [done|]. by rewrite repeat_length.
Qed.

Lemma cryptPassword_round_trip_witness :
  exists enc rc4,
    cryptPassword SystemLibraryDTC (lit "Passw0rd!") = Return enc /\
    ARC4.new SystemLibraryDTC = Return rc4 /\
    let clear := ARC4.encrypt rc4 (enc_Buffer enc) in
    length clear = 516%nat /\
    le_value (drop 512 clear) = 18 /\
    drop 494 (take 512 clear)
    = [80; 0; 97; 0; 115; 0; 115; 0; 119; 0; 48; 0; 114; 0; 100; 0; 33; 0].
Proof.
  apply (cryptPassword_round_trip SystemLibraryDTC (lit "Passw0rd!")
    [80; 0; 97; 0; 115; 0; 115; 0; 119; 0; 48; 0; 114; 0; 100; 0; 33; 0]).
  - reflexivity.
  - reflexivity.
  - vm_compute. discriminate.
Defined.

(** X11: [cryptPassword] looks at the password before the key. A password
    with a code point that UTF-16 cannot encode, a lone surrogate for one,
    raises [UnicodeEncodeError] under every key; an encodable password
    under a key of a length other than 1 to 256 raises [ValueError];
    every other call returns, and the buffer returned has 516 octets
    whatever the length of the password. *)
Theorem cryptPassword_outcomes (session_key : bytes) (password : str) :
  (Exists (fun c => ~ encodable c) password ->
   cryptPassword session_key password = Raise UnicodeEncodeError) /\
  (Forall encodable password -> ARC4.key_size_ok session_key = false ->
   cryptPassword session_key password = Raise ValueError) /\
  (Forall encodable password -> ARC4.key_size_ok session_key = true ->
   exists enc, cryptPassword session_key password = Return enc /\
               length (enc_Buffer enc) = 516%nat).
Proof.
  destruct (encode_utf_16le_spec password)
    as [(Hall & b & He & _) | (Hex & He)].
  - split; [|split].
    + intros Hex. exfalso. apply Exists_exists in Hex as (c & Hin & Hc).
      rewrite Forall_forall in Hall. by apply Hc, Hall.
    + intros _ Hk. unfold cryptPassword.
      rewrite (sam_user_pass_encoded _ _ He). cbn [mbind outcome_bind].
      unfold ARC4.new. by rewrite Hk.
    + intros _ Hk. eexists.
      split; [exact (cryptPassword_unfold _ _ _ Hk He)|].
      cbn [enc_Buffer].
      by rewrite length_prga, length_app, length_pack_s, length_pack_ULONG.
  - assert (Hraise : cryptPassword session_key password
                     = Raise UnicodeEncodeError).
    { unfold cryptPassword, sam_user_pass. by rewrite He. }
    split; [done|].
    split; intros Hall; exfalso;
      apply Exists_exists in Hex as (c & Hin & Hc);
      rewrite Forall_forall in Hall; by apply Hc, Hall.
Qed.

Lemma cryptPassword_outcomes_witness :
  cryptPassword SystemLibraryDTC surrogate_password = Raise UnicodeEncodeError.
Proof.
  apply (proj1 (cryptPassword_outcomes SystemLibraryDTC surrogate_password)).
  do 2 apply Exists_cons_tl. apply Exists_cons_hd.
  unfold encodable. lia.
Defined.

(** X12: a password of at most 128 characters always fits: its clear-text
    buffer has exactly 512 octets. A password of more than 256 characters
    never fits: the buffer is the bare encoding, longer than 512 octets.
    A password of the basic plane is encoded on twice as many octets as it
    has characters, so that it fits up to 256 characters. *)
Theorem sam_user_pass_capacity (password : str) (encoded : bytes) :
  encode_utf_16le password = Return encoded ->
  exists p,
    sam_user_pass password = Return p /\
    Length p = len encoded /\
    ((length password <= 128)%nat -> length (Buffer p) = 512%nat) /\
    ((256 < length password)%nat ->
     Buffer p = encoded /\ (512 < length (Buffer p))%nat) /\
    (Forall (fun c => c < 0x10000) password ->
     (length password <= 256)%nat ->
     length encoded = (2 * length password)%nat /\
     length (Buffer p) = 512%nat).
Proof.
  intros He. eexists. split; [exact (sam_user_pass_encoded _ _ He)|].
  cbn [Buffer Length]. split; [done|].
  destruct (encode_utf_16le_spec password)
    as [(_ & b & He' & Hlen & Hbmp) | (_ & He')]; [|congruence].
  assert (b = encoded) as -> by congruence.
  split; [|split].
  - intros Hn. rewrite bytes_mul_short by (unfold len; lia).
    rewrite length_app, repeat_length. lia.
  - intros Hn. rewrite bytes_mul_long by (unfold len; lia).
    split; [done|]. simpl. lia.
  - intros Hall Hn. specialize (Hbmp Hall). split; [done|].
    rewrite bytes_mul_short by (unfold len; lia).
    rewrite length_app, repeat_length. lia.
Qed.

Lemma sam_user_pass_capacity_witness :
  exists p,
    sam_user_pass (lit "Passw0rd!") = Return p /\
    Length p = 18 /\ length (Buffer p) = 512%nat.
Proof.
  destruct (sam_user_pass_capacity (lit "Passw0rd!")
    [80; 0; 97; 0; 115; 0; 115; 0; 119; 0; 48; 0; 114; 0; 100; 0; 33; 0]
    eq_refl) as (p & Hp & Hl & Hfit & _).
  exists p. split; [exact Hp|]. split; [exact Hl|].
  apply Hfit. simpl. lia.
Defined.

(** ** rpcChangePassword *)

(** X13: whatever the target, the password and the server,
    [rpcChangePassword] makes at most five preparatory calls and then at
    most one [request]. A request is submitted only after the five
    preparatory calls; it always has the information class and the tag of
    [UserInternal5Information], a password-expired flag of 0 and the buffer
    that [cryptPassword] gives for the new password under
    "SystemLibraryDTC". *)
Theorem rpcChangePassword_calls (target new_pass : str)
    (conn : RpcConnection) :
  exists prep,
    Forall is_preparatory prep /\ (length prep <= 5)%nat /\
    (calls (rpcChangePassword target new_pass conn).2 = calls conn ++ prep \/
     exists req,
       calls (rpcChangePassword target new_pass conn).2
       = calls conn ++ prep ++ [request req] /\
       length prep = 5%nat /\
       UserInformationClass req = UserInternal5Information /\
       Buffer_tag req = UserInternal5Information /\
       Internal5_PasswordExpired req = 0 /\
       cryptPassword SystemLibraryDTC new_pass
       = Return (Internal5_UserPassword req)).
Proof.
  unfold rpcChangePassword, getSamrConnection.
  rewrite io_bind_run, io_bind_run. cbn [get]. rewrite lift_run.
  destruct (samr_connection conn) as [dce|e] eqn:Hdce.
  2: { exists []. split; [constructor|]. split; [simpl; lia|].
       left. cbn [snd]. by rewrite app_nil_r. }
  rewrite io_bind_run. cbn [get].
  set (c1 := hSamrConnect (conf_host conn ++ [0])).
  rewrite io_bind_run, remote_run.
  destruct (on_connect dce _ _) as [sh|e].
  2: { exists [c1]. split; [by repeat constructor|]. split; [simpl; lia|].
       left. reflexivity. }
  set (c2 := hSamrLookupDomainInSamServer sh (conf_domain conn)).
  rewrite io_bind_run, remote_run. cbn [calls].
  destruct (on_lookup_domain dce _ _ _) as [sid|e].
  2: { exists [c1; c2]. split; [by repeat constructor|]. split; [simpl; lia|].
       left. cbn [snd calls]. by rewrite <- app_assoc. }
  set (c3 := hSamrOpenDomain sh sid).
  rewrite io_bind_run, remote_run. cbn [calls].
  destruct (on_open_domain dce _ _ _) as [dh|e].
  2: { exists [c1; c2; c3]. split; [by repeat constructor|].
       split; [simpl; lia|].
       left. cbn [snd calls]. by rewrite <- !app_assoc. }
  set (c4 := hSamrLookupNamesInDomain dh [target]).
  rewrite io_bind_run, remote_run. cbn [calls].
  destruct (on_lookup_names dce _ _ _) as [rids|e].
  2: { exists [c1; c2; c3; c4]. split; [by repeat constructor|].
       split; [simpl; lia|].
       left. cbn [snd calls]. by rewrite <- !app_assoc. }
  rewrite io_bind_run, lift_run.
  destruct (item rids 0) as [rid|e].
  2: { exists [c1; c2; c3; c4]. split; [by repeat constructor|].
       split; [simpl; lia|].
       left. cbn [snd calls]. by rewrite <- !app_assoc. }
  set (c5 := hSamrOpenUser dh rid).
  rewrite io_bind_run, remote_run. cbn [calls].
  destruct (on_open_user dce _ _ _) as [uh|e].
  2: { exists [c1; c2; c3; c4; c5]. split; [by repeat constructor|].
       split; [simpl; lia|].
       left. cbn [snd calls]. by rewrite <- !app_assoc. }
  rewrite io_bind_run, lift_run.
  destruct (cryptPassword SystemLibraryDTC new_pass) as [ct|e] eqn:Hct.
  2: { exists [c1; c2; c3; c4; c5]. split; [by repeat constructor|].
       split; [simpl; lia|].
       left. cbn [snd calls]. by rewrite <- !app_assoc. }
  rewrite io_bind_run, remote_run. cbn [calls].
  exists [c1; c2; c3; c4; c5]. split; [by repeat constructor|].
  split; [simpl; lia|]. right.
  eexists {| UserHandle := uh; Internal5_UserPassword := ct |}.
  split; [|by repeat split].
  destruct (on_request dce _ _) as [resp|e]; cbn [snd calls];
    by rewrite <- !app_assoc.
Qed.

Section preparatory_calls.

(** The transport is there and the first three calls are answered. *)
Variables (target new_pass : str) (conn : RpcConnection) (dce : samr_server).
Variables (server_handle domainSID domain_handle : bytes).

Let c1 := hSamrConnect (conf_host conn ++ [0]).
Let c2 := hSamrLookupDomainInSamServer server_handle (conf_domain conn).
Let c3 := hSamrOpenDomain server_handle domainSID.
Let c4 := hSamrLookupNamesInDomain domain_handle [target].

Hypothesis transport : samr_connection conn = Return dce.
Hypothesis connected :
  on_connect dce (calls conn) (conf_host conn ++ [0]) = Return server_handle.
Hypothesis domain_found :
  on_lookup_domain dce (calls conn ++ [c1]) server_handle (conf_domain conn)
  = Return domainSID.
Hypothesis domain_opened :
  on_open_domain dce (calls conn ++ [c1; c2]) server_handle domainSID
  = Return domain_handle.

Lemma rpcChangePassword_after_lookup (rids : list Z) :
  on_lookup_names dce (calls conn ++ [c1; c2; c3]) domain_handle [target]
  = Return rids ->
  rpcChangePassword target new_pass conn =
  (userRID ← lift (item rids 0);
   opened_user ←
     remote (hSamrOpenUser domain_handle userRID)
       (fun h => on_open_user dce h domain_handle userRID);
   user_password ← lift (cryptPassword SystemLibraryDTC new_pass);
   let req := {| UserHandle := opened_user;
                 UserInformationClass := UserInternal5Information;
                 Buffer_tag := UserInternal5Information;
                 Internal5_UserPassword := user_password;
                 Internal5_PasswordExpired := 0 |} in
   resp ← remote (request req) (fun h => on_request dce h req);
   mret resp)
    {| conf_host := conf_host conn; conf_domain := conf_domain conn;
       samr_connection := samr_connection conn;
       calls := calls conn ++ [c1; c2; c3; c4] |}.
Proof using All.
  intros H4. unfold rpcChangePassword, getSamrConnection.
  rewrite io_bind_run, io_bind_run. cbn [get]. rewrite lift_run, transport.
  rewrite io_bind_run. cbn [get].
  rewrite io_bind_run, remote_run, connected.
  rewrite io_bind_run, remote_run. cbn [calls]. fold c1. rewrite domain_found.
  rewrite io_bind_run, remote_run. cbn [calls]. fold c2.
  rewrite <- (app_assoc (calls conn) [c1] [c2]). simpl app.
  rewrite domain_opened.
  rewrite io_bind_run, remote_run. cbn [calls]. fold c3.
  rewrite <- (app_assoc (calls conn) [c1; c2] [c3]). simpl app. rewrite H4.
  fold c4. rewrite <- (app_assoc (calls conn) [c1; c2; c3] [c4]). simpl app.
  cbn [conf_host conf_domain samr_connection]. rewrite transport.
  reflexivity.
Qed.

End preparatory_calls.

(** X14: when the server maps the target name to no relative identifier,
    [rpcChangePassword] raises [IndexError] after the fourth call: no user
    is opened and no request is submitted. *)
Theorem rpcChangePassword_unknown_name (target new_pass : str)
    (conn : RpcConnection) (dce : samr_server)
    (server_handle domainSID domain_handle : bytes) :
  let c1 := hSamrConnect (conf_host conn ++ [0]) in
  let c2 := hSamrLookupDomainInSamServer server_handle (conf_domain conn) in
  let c3 := hSamrOpenDomain server_handle domainSID in
  let c4 := hSamrLookupNamesInDomain domain_handle [target] in
  samr_connection conn = Return dce ->
  on_connect dce (calls conn) (conf_host conn ++ [0]) = Return server_handle ->
  on_lookup_domain dce (calls conn ++ [c1]) server_handle (conf_domain conn)
    = Return domainSID ->
  on_open_domain dce (calls conn ++ [c1; c2]) server_handle domainSID
    = Return domain_handle ->
  on_lookup_names dce (calls conn ++ [c1; c2; c3]) domain_handle [target]
    = Return [] ->
  (rpcChangePassword target new_pass conn).1 = Raise IndexError /\
  calls (rpcChangePassword target new_pass conn).2
  = calls conn ++ [c1; c2; c3; c4].
Proof.
  intros c1 c2 c3 c4 Hdce H1 H2 H3 H4.
  rewrite (rpcChangePassword_after_lookup target new_pass conn dce
             server_handle domainSID domain_handle Hdce H1 H2 H3 [] H4).
  rewrite io_bind_run, lift_run. by cbn.
Qed.

Lemma rpcChangePassword_unknown_name_witness :
  (rpcChangePassword (lit "ghost") (lit "Passw0rd!") nameless_rpc).1
  = Raise IndexError /\
  calls (rpcChangePassword (lit "ghost") (lit "Passw0rd!") nameless_rpc).2
  = [hSamrConnect (lit "dc01.corp.test" ++ [0]);
     hSamrLookupDomainInSamServer [1] (lit "corp.test");
     hSamrOpenDomain [1] [1; 4; 0; 0; 0; 0; 0; 5];
     hSamrLookupNamesInDomain [2] [lit "ghost"]].
Proof.
  apply (rpcChangePassword_unknown_name (lit "ghost") (lit "Passw0rd!")
           nameless_rpc nameless_samr [1] [1; 4; 0; 0; 0; 0; 0; 5] [2]);
    reflexivity.
Defined.

(** X15: the password is encrypted only once the user is opened. With a
    password that UTF-16 cannot encode, [rpcChangePassword] makes the five
    preparatory calls, then raises [UnicodeEncodeError]: the handles have
    been opened on the server and no request is submitted. *)
Theorem rpcChangePassword_unencodable_password (target new_pass : str)
    (conn : RpcConnection) (dce : samr_server)
    (server_handle domainSID domain_handle opened_user : bytes)
    (userRID : Z) (other_rids : list Z) :
  let c1 := hSamrConnect (conf_host conn ++ [0]) in
  let c2 := hSamrLookupDomainInSamServer server_handle (conf_domain conn) in
  let c3 := hSamrOpenDomain server_handle domainSID in
  let c4 := hSamrLookupNamesInDomain domain_handle [target] in
  let c5 := hSamrOpenUser domain_handle userRID in
  samr_connection conn = Return dce ->
  on_connect dce (calls conn) (conf_host conn ++ [0]) = Return server_handle ->
  on_lookup_domain dce (calls conn ++ [c1]) server_handle (conf_domain conn)
    = Return domainSID ->
  on_open_domain dce (calls conn ++ [c1; c2]) server_handle domainSID
    = Return domain_handle ->
  on_lookup_names dce (calls conn ++ [c1; c2; c3]) domain_handle [target]
    = Return (userRID :: other_rids) ->
  on_open_user dce (calls conn ++ [c1; c2; c3; c4]) domain_handle userRID
    = Return opened_user ->
  Exists (fun c => ~ encodable c) new_pass ->
  (rpcChangePassword target new_pass conn).1 = Raise UnicodeEncodeError /\
  calls (rpcChangePassword target new_pass conn).2
  = calls conn ++ [c1; c2; c3; c4; c5].
Proof.
  intros c1 c2 c3 c4 c5 Hdce H1 H2 H3 H4 H5 Hbad.
  rewrite (rpcChangePassword_after_lookup target new_pass conn dce
             server_handle domainSID domain_handle Hdce H1 H2 H3 _ H4).
  rewrite io_bind_run, lift_run. cbn [item lookup list_lookup].
  rewrite io_bind_run, remote_run. cbn [calls]. fold c1 c2 c3 c4. rewrite H5.
  rewrite io_bind_run, lift_run.
  assert (Hct : cryptPassword SystemLibraryDTC new_pass
                = Raise UnicodeEncodeError).
  { unfold cryptPassword, sam_user_pass.
    destruct (encode_utf_16le_spec new_pass) as [(Hall & _) | (_ & ->)];
      [|done].
    exfalso. apply Exists_exists in Hbad as (c & Hin & Hc).
    rewrite Forall_forall in Hall. by apply Hc, Hall. }
  rewrite Hct. cbn [fst snd calls]. split; [done|].
  by rewrite <- app_assoc.
Qed.

Lemma rpcChangePassword_unencodable_password_witness :
  (rpcChangePassword (lit "svc") surrogate_password corp_rpc).1
  = Raise UnicodeEncodeError /\
  calls (rpcChangePassword (lit "svc") surrogate_password corp_rpc).2
  = [hSamrConnect (lit "dc01.corp.test" ++ [0]);
     hSamrLookupDomainInSamServer [1] (lit "corp.test");
     hSamrOpenDomain [1] [1; 4; 0; 0; 0; 0; 0; 5];
     hSamrLookupNamesInDomain [2] [lit "svc"];
     hSamrOpenUser [2] 1104].
Proof.
  apply (rpcChangePassword_unencodable_password (lit "svc") surrogate_password
           corp_rpc corp_samr [1] [1; 4; 0; 0; 0; 0; 0; 5] [2] [3] 1104 []);
    try reflexivity.
  do 2 apply Exists_cons_tl. apply Exists_cons_hd. unfold encodable. lia.
Defined.

(** ** createACE *)


